(** * Verification of the thirds-global scheduling and insights core

    Shallow embedding of the TypeScript code of the schedule builder page
    (block-time resolution and task capacity checks), of the insights API
    route (completion velocity analyzer, proposal generator, rule-based
    fallback) and of the task PATCH route. *)

From Stdlib Require Import ZArith QArith Qminmax Lia Ascii.
From stdpp Require Import base list gmap strings pretty.

Open Scope Z_scope.

(* ------------------------------------------------------------------ *)
(** ** Interval model: clock values and minute arithmetic *)

(** A time string ["HH:MM"] as the code reads it: [t.split(':').map(Number)]
    yields its two numeric fields, the hour and the minute. *)
Record Clock := mkClock { hh : Z; mm : Z }.

(** [{ startTime, endTime }] *)
Record TimeBlock := mkBlock { startTime : Clock; endTime : Clock }.

(** [{ high, medium, low }] *)
Record Times := mkTimes { high : TimeBlock; medium : TimeBlock; low : TimeBlock }.

Inductive Energy := High | Medium | Low.

Definition Energy_eqb (a b : Energy) : bool :=
  match a, b with
  | High, High | Medium, Medium | Low, Low => true
  | _, _ => false
  end.

(** [const toMin = (t) => { const [h,m] = t.split(':').map(Number); return h*60+m; }] *)
Definition toMin (c : Clock) : Z := hh c * 60 + mm c.

(** [const fromMin = (x) => `${Math.floor(x/60)}:${x%60}`] (the numeric
    fields of the rendered string; JS [%] is the truncating remainder). *)
Definition fromMin (x : Z) : Clock := mkClock (x / 60) (Z.rem x 60).

(** [String(n).padStart(2,'0')] *)
Definition padStart2 (s : string) : string :=
  match s with
  | EmptyString => "00"
  | String _ EmptyString => "0" +:+ s
  | _ => s
  end.

Definition pad (n : Z) : string := padStart2 (pretty n).

(** The ["HH:MM"] text of a clock value as [fromMin] renders it. *)
Definition showClock (c : Clock) : string := pad (hh c) +:+ ":" +:+ pad (mm c).

(** A well-formed ["HH:MM"] field as the time inputs produce it. *)
Definition valid_clock (c : Clock) : Prop := 0 <= hh c <= 23 /\ 0 <= mm c <= 59.

(** [const overlap = (aS,aE,bS,bE) => (aS < bE && bS < aE)] *)
Definition overlap (aS aE bS bE : Z) : bool := (aS <? bE) && (bS <? aE).

(** [hasOverlapSimple] *)
Definition hasOverlapSimple (t : Times) : bool :=
  let hS := toMin (startTime (high t)) in let hE := toMin (endTime (high t)) in
  let mS := toMin (startTime (medium t)) in let mE := toMin (endTime (medium t)) in
  let lS := toMin (startTime (low t)) in let lE := toMin (endTime (low t)) in
  overlap hS hE mS mE || overlap hS hE lS lE || overlap mS mE lS lE.

(** [const dur = (s,e) => Math.max(1, e - s)] *)
Definition dur (s e : Z) : Z := Z.max 1 (e - s).

(** [autoAdjustContinuous]: the full re-chain resolver. *)
Definition autoAdjustContinuous (t : Times) : Times :=
  let hS := toMin (startTime (high t)) in let hE := toMin (endTime (high t)) in
  let mS := toMin (startTime (medium t)) in let mE := toMin (endTime (medium t)) in
  let lS := toMin (startTime (low t)) in let lE := toMin (endTime (low t)) in
  let mDur := dur mS mE in let lDur := dur lS lE in
  (* if (mS < hE) mS = hE; mE = mS + mDur; *)
  let mS := if mS <? hE then hE else mS in
  let mE := mS + mDur in
  (* if (lS < mE) lS = mE; lE = lS + lDur; *)
  let lS := if lS <? mE then mE else lS in
  let lE := lS + lDur in
  mkTimes (mkBlock (fromMin hS) (fromMin hE))
          (mkBlock (fromMin mS) (fromMin mE))
          (mkBlock (fromMin lS) (fromMin lE)).

(** [res[key] = { startTime, endTime }] *)
Definition setBlock (t : Times) (k : Energy) (b : TimeBlock) : Times :=
  match k with
  | High => mkTimes b (medium t) (low t)
  | Medium => mkTimes (high t) b (low t)
  | Low => mkTimes (high t) (medium t) b
  end.

(** [adjustAdjacentForChange]: single-block edit propagation. *)
Definition adjustAdjacentForChange (base : Times) (changed : Energy)
    (s e : Clock) : Times :=
  let res := setBlock base changed (mkBlock s e) in
  let hS := toMin (startTime (high res)) in let hE := toMin (endTime (high res)) in
  let mS := toMin (startTime (medium res)) in let mE := toMin (endTime (medium res)) in
  let lS := toMin (startTime (low res)) in let lE := toMin (endTime (low res)) in
  (* Fix overlap with High<->Medium *)
  let '(mS, highEnd) :=
    if mS <? hE then
      if Energy_eqb changed High then (hE, endTime (high res))
      else (mS, fromMin (Z.max (hS + 1) mS))
    else (mS, endTime (high res)) in
  let mediumStart := fromMin mS in
  let newHE2 := toMin highEnd in
  let mS := toMin mediumStart in
  let mE := if mE <=? mS then mS + 1 else mE in
  (* Fix overlap with Medium<->Low *)
  let '(mE, lS) :=
    if lS <? mE then
      match changed with
      | Medium => (mE, mE)
      | Low => (Z.max (mS + 1) lS, lS)
      | High => (mE, Z.max lS mE)
      end
    else (mE, lS) in
  let lE := if lE <=? lS then lS + 1 else lE in
  mkTimes (mkBlock (startTime (high res)) (fromMin newHE2))
          (mkBlock mediumStart (fromMin mE))
          (mkBlock (fromMin lS) (fromMin lE)).

(** [validateTimes]: every block must end strictly after it starts. *)
Definition validateTimes (t : Times) : bool :=
  let ok b := toMin (startTime b) <? toMin (endTime b) in
  ok (high t) && ok (medium t) && ok (low t).

Inductive SaveOutcome := Saved (t : Times) | Rejected.

(** [handleSaveTimes]; [confirm] is the user's answer to the auto-adjust
    prompt, and [Saved t] the times then applied to the selected days. *)
Definition handleSaveTimes (confirm : bool) (t : Times) : SaveOutcome :=
  if negb (validateTimes t) then Rejected
  else if hasOverlapSimple t then
    if confirm then Saved (autoAdjustContinuous t) else Rejected
  else Saved t.

Definition hm (h m : Z) : Clock := mkClock h m.

(** A block entered as two ["HH:MM"] fields, ending strictly after it starts. *)
Definition valid_block (b : TimeBlock) : Prop :=
  valid_clock (startTime b) /\ valid_clock (endTime b) /\
  toMin (startTime b) < toMin (endTime b).

Definition valid_times (t : Times) : Prop :=
  valid_block (high t) /\ valid_block (medium t) /\ valid_block (low t).

(** Two blocks do not overlap in minute space. *)
Definition disjoint (a b : TimeBlock) : Prop :=
  toMin (endTime a) <= toMin (startTime b) \/ toMin (endTime b) <= toMin (startTime a).

Definition pairwise_disjoint (t : Times) : Prop :=
  disjoint (high t) (medium t) /\ disjoint (high t) (low t) /\
  disjoint (medium t) (low t).

Definition blockDur (b : TimeBlock) : Z := toMin (endTime b) - toMin (startTime b).

(** The blocks of a schedule in canonical chronological order. *)
Definition ordered (t : Times) : Prop :=
  toMin (endTime (high t)) <= toMin (startTime (medium t)) /\
  toMin (endTime (medium t)) <= toMin (startTime (low t)).

(** The example schedule of the spec: High 06:00-12:00, Medium 12:00-18:00,
    Low 18:00-22:00. *)
Definition example_times : Times :=
  mkTimes (mkBlock (hm 6 0) (hm 12 0)) (mkBlock (hm 12 0) (hm 18 0))
          (mkBlock (hm 18 0) (hm 22 0)).

(** A valid non-overlapping triple given out of canonical order: Low, then
    High, then Medium. *)
Definition shuffled_times : Times :=
  mkTimes (mkBlock (hm 10 0) (hm 12 0)) (mkBlock (hm 13 0) (hm 15 30))
          (mkBlock (hm 7 15) (hm 9 0)).

(** High 06:00-23:00, Medium 12:00-18:00, Low 18:00-22:00. *)
Definition late_high_times : Times :=
  mkTimes (mkBlock (hm 6 0) (hm 23 0)) (mkBlock (hm 12 0) (hm 18 0))
          (mkBlock (hm 18 0) (hm 22 0)).

(* ------------------------------------------------------------------ *)
(** ** Completion velocity analyzer (insights route) *)

Inductive TaskStatus := Active | Completed | Skipped.

(** A task row as selected with its session: [tasks(status, duration_minutes)];
    [duration_minutes] is nullable. *)
Record DbTask := mkTask { status : TaskStatus; duration_minutes : option Z }.

(** A session row with its template's [start_time] (if any) and its tasks. *)
Record Session := mkSession { start_time : option Clock; tasks : list DbTask }.

Definition isCompleted (t : DbTask) : bool :=
  match status t with Completed => true | _ => false end.

(** [t.duration_minutes || 0] *)
Definition durOrZero (t : DbTask) : Z := from_option id 0 (duration_minutes t).

(** [parseInt((start_time || '0:0').split(':')[0], 10) || 0] *)
Definition startHour (s : Session) : Z :=
  match start_time s with Some c => hh c | None => 0 end.

(** One step of [sessions.forEach] filling [byHourMap]: the pair is
    [{ completed, totalDuration }]. *)
Definition addSession (m : gmap Z (Z * Z)) (s : Session) : gmap Z (Z * Z) :=
  let h := startHour s in
  let done := List.filter isCompleted (tasks s) in
  let totalDur := fold_left (fun a t => a + durOrZero t) done 0 in
  let '(c, d) := from_option id (0, 0) (m !! h) in
  <[h := (c + Z.of_nat (length done), d + totalDur)]> m.

Definition byHourMap (ss : list Session) : gmap Z (Z * Z) :=
  fold_left addSession ss ∅.

(** [byHourMap[h] || { completed: 0, totalDuration: 0 }] *)
Definition hourTotals (ss : list Session) (h : Z) : Z * Z :=
  from_option id (0, 0) (byHourMap ss !! h).

Record HourRow := mkRow { hour : Z; completed : Z; avgDuration : Q }.

Definition hours24 : list Z := map Z.of_nat (seq 0 24).

(** A row of [byHour]: [avg = completed > 0 ? totalDuration / completed : 0]. *)
Definition rowOf (ss : list Session) (h : Z) : HourRow :=
  let '(c, d) := hourTotals ss h in
  mkRow h c (if 0 <? c then inject_Z d / inject_Z c else 0%Q).

Definition byHour (ss : list Session) : list HourRow := map (rowOf ss) hours24.

(** [Array.prototype.sort] with a comparator is stable; [before y x] holds
    when the comparator does not put [x] strictly before [y]. Inserting the
    elements in their original order yields the stable sorted order. *)
Fixpoint insert_by {A} (before : A -> A -> bool) (x : A) (l : list A) : list A :=
  match l with
  | [] => [x]
  | y :: l' => if before y x then y :: insert_by before x l' else x :: l
  end.

Definition sort_by {A} (before : A -> A -> bool) (l : list A) : list A :=
  fold_left (fun acc x => insert_by before x acc) l [].

(** The first element of [l] is placed no later than any element of [l]. *)
Definition head_least {A} (before : A -> A -> bool) (l : list A) : Prop :=
  forall m, head l = Some m -> forall y, In y l -> before m y = true.

(** [(a,b) => a.avgDuration - b.avgDuration] *)
Definition byAvgAsc (a b : HourRow) : bool := Qle_bool (avgDuration a) (avgDuration b).

(** [(a,b) => b.completed - a.completed] *)
Definition byCompletedDesc (a b : HourRow) : bool := completed b <=? completed a.

(** [byHour.filter(h => h.completed >= 3).sort(...)] *)
Definition eligible (ss : list Session) : list HourRow :=
  sort_by byAvgAsc (List.filter (fun r => 3 <=? completed r) (byHour ss)).

(** [eligible[0]?.hour] *)
Definition fastestHour (ss : list Session) : option Z :=
  option_map hour (head (eligible ss)).

Definition fastestAvg (ss : list Session) : option Q :=
  option_map avgDuration (head (eligible ss)).

(** [byHour.slice().sort((a,b)=> b.completed - a.completed)[0]?.hour] *)
Definition highestThroughputHour (ss : list Session) : option Z :=
  option_map hour (head (sort_by byCompletedDesc (byHour ss))).

Definition doneTask (d : Z) : DbTask := mkTask Completed (Some d).

(** The synthetic history: three completed 10-minute tasks in a block
    starting at 09:00 and two completed 5-minute tasks in one at 14:00. *)
Definition synthetic_history : list Session :=
  [mkSession (Some (hm 9 0)) [doneTask 10; doneTask 10; doneTask 10];
   mkSession (Some (hm 14 0)) [doneTask 5; doneTask 5]].

(* ------------------------------------------------------------------ *)
(** ** Insights facade: summary, proposals and rule-based fallback *)

(** [{ count, avgDuration }] and [{ sessions, avgDuration }] *)
Record Pattern := mkPattern { pcount : Z; pavg : Q }.

Record EnergyPatterns := mkEnergyPatterns { ep_high : Pattern; ep_medium : Pattern; ep_low : Pattern }.
Record TimePatterns := mkTimePatterns { tp_morning : Pattern; tp_afternoon : Pattern; tp_night : Pattern }.

(** [Object.entries(...)] in key insertion order. *)
Definition energyEntries (e : EnergyPatterns) : list (string * Pattern) :=
  [("high", ep_high e); ("medium", ep_medium e); ("low", ep_low e)].
Definition timeEntries (t : TimePatterns) : list (string * Pattern) :=
  [("morning", tp_morning t); ("afternoon", tp_afternoon t); ("night", tp_night t)].

(** The fields of [UserDataSummary] the suggestion, motivation and proposal
    generators read. *)
Record UserDataSummary := mkSummary {
  totalSessions : Z;
  totalFocusTime : Z;
  completionRate : Q;
  energyLevelPatterns : EnergyPatterns;
  timeOfDayPatterns : TimePatterns;
  lastWeekSessions : Z;
  hasSchedule : bool;
  cvFastestHour : option Z;
  cvFastestAvg : option Q;
  cvHighestThroughputHour : option Z
}.

Record Proposal := mkProposal {
  ptype : string; target_start : string; target_end : string; rationale : string }.

(** U+2013, the en dash of the rationale's window. *)
Definition endash : string := "–".

(** [generateScheduleProposals] *)
Definition generateScheduleProposals (u : UserDataSummary) : list Proposal :=
  match cvFastestHour u with
  | Some fastestHour =>
      let startHour := Z.max 0 (fastestHour - 1) in
      let endHour := Z.min 23 (fastestHour + 1) in
      let start := pad startHour +:+ ":00" in
      let stop := pad endHour +:+ ":00" in
      [mkProposal "shift_high_block" start stop
         ("Your fastest completion window is around " +:+ pad fastestHour +:+
          ":00; shifting High energy block to " +:+ start +:+ endash +:+ stop +:+
          " may improve throughput.")]
  | None => []
  end.

(** [(a,b) => b.avgDuration - a.avgDuration] on [Object.entries] pairs. *)
Definition byPavgDesc (a b : string * Pattern) : bool := Qle_bool (pavg b.2) (pavg a.2).

(** [generateRuleBasedSuggestions] *)
Definition generateRuleBasedSuggestions (u : UserDataSummary) : list string :=
  let s0 : list string := [] in
  let s1 := s0 ++
    (if 4 * 3600 <? totalFocusTime u then
       ["You've completed 4+ hours of deep work today. Consider taking a longer break to recharge."]
     else if (totalFocusTime u <? 2 * 3600) && (0 <? totalSessions u) then
       ["Try extending your focus sessions to build deeper concentration habits."]
     else []) in
  let s2 := s1 ++
    match head (sort_by byPavgDesc (energyEntries (energyLevelPatterns u))) with
    | Some (name, p) =>
        if 0 <? pcount p then
          ["Your " +:+ name +:+ " energy sessions are most productive. Schedule important tasks during these times."]
        else []
    | None => []
    end in
  let s3 := s2 ++
    match head (sort_by byPavgDesc (timeEntries (timeOfDayPatterns u))) with
    | Some (name, p) =>
        if 0 <? pcount p then
          ["Your " +:+ name +:+ " sessions show the best focus. Consider making this your primary work time."]
        else []
    | None => []
    end in
  let s4 := s3 ++
    (if negb (Qle_bool (completionRate u) 80) then
       ["Excellent task completion rate! Your consistency is building strong productivity habits."]
     else if negb (Qle_bool 50 (completionRate u)) then
       ["Try breaking tasks into smaller chunks to improve completion rates and build momentum."]
     else []) in
  let s5 := s4 ++
    (if negb (hasSchedule u) then
       ["Set up a consistent sleep and wake schedule to optimize your energy levels throughout the day."]
     else []) in
  let s6 := s5 ++
    (if lastWeekSessions u <? 3 then
       ["Increase session frequency to build stronger focus habits. Aim for at least 3 sessions per week."]
     else []) in
  let s7 :=
    match s6 with
    | [] => ["Start tracking your energy levels throughout the day to identify your most productive times.";
             "Try the Pomodoro technique: 25 minutes of focused work followed by a 5-minute break.";
             "Schedule your most challenging tasks during your highest energy periods."]
    | _ => s6
    end in
  take 6 s7.

(** [generateRuleBasedMotivation] *)
Definition generateRuleBasedMotivation (u : UserDataSummary) : string :=
  match cvFastestHour u with
  | Some h => "Lean into your " +:+ pretty h +:+ ":00 momentum—keep the streak alive."
  | None =>
      if 0 <? lastWeekSessions u then "Consistency compounds—today’s focus moves the needle."
      else "Start small, finish strong."
  end.

Record InsightsResponse := mkInsights {
  suggestions : list string; proposals : list Proposal; motivation : string }.

Inductive Response := RespOk (d : InsightsResponse) | RespErr (code : Z) (error : string).

(** [GET] of the insights route. [user] is the authenticated user (if any),
    [summary] the result of [fetchUserDataSummary] ([None] when it throws),
    [aiSuggestions] and [aiMotivation] the results of the two external
    narrative calls ([None] when the call throws). *)
Definition GET (user : option string) (summary : option UserDataSummary)
    (aiSuggestions : option (list string)) (aiMotivation : option string) : Response :=
  match user with
  | None => RespErr 401 "Authentication required"
  | Some _ =>
      match summary with
      | None => RespErr 500 "Failed to generate insights"
      | Some u =>
          match aiSuggestions, aiMotivation with
          | Some s, Some m => RespOk (mkInsights s (generateScheduleProposals u) m)
          | _, _ =>
              RespOk (mkInsights (generateRuleBasedSuggestions u)
                        (generateScheduleProposals u) (generateRuleBasedMotivation u))
          end
      end
  end.

Definition summary_with_fastest (fh : option Z) : UserDataSummary :=
  mkSummary 0 0 0 (mkEnergyPatterns (mkPattern 0 0) (mkPattern 0 0) (mkPattern 0 0))
    (mkTimePatterns (mkPattern 0 0) (mkPattern 0 0) (mkPattern 0 0)) 0 true fh None None.

(* ------------------------------------------------------------------ *)
(** ** Task capacity (schedule builder) *)

(** A task of the builder: [{ id, name, duration, ... }]. *)
Record BuilderTask := mkBuilderTask { btName : string; duration : Z }.

(** [new Date(`2000-01-01T${t}`).getTime()], in minutes from the start of
    that day. The date-time string format takes hours 00-23 with minutes
    00-59, and 24:00 for the end of the day; any other time (such as the
    ["29:00"] that [autoAdjustContinuous] can produce) makes an Invalid Date,
    whose time is NaN, written [None]. *)
Definition dateMin (c : Clock) : option Z :=
  if (0 <=? hh c) && (hh c <=? 23) && (0 <=? mm c) && (mm c <=? 59) then Some (toMin c)
  else if (hh c =? 24) && (mm c =? 0) then Some 1440
  else None.

(** [getBlockDuration]: [(end.getTime() - start.getTime()) / (1000 * 60)],
    NaN ([None]) when either time is an Invalid Date. *)
Definition getBlockDuration (startT endT : Clock) : option Z :=
  match dateMin startT, dateMin endT with
  | Some a, Some b => Some (b - a)
  | _, _ => None
  end.

(** [x > y] where [y] may be NaN ([None]): a comparison with NaN is false. *)
Definition gtNum (x : Z) (y : option Z) : bool :=
  match y with Some v => v <? x | None => false end.

(** [tasks.reduce((sum, t) => sum + t.duration, 0)] *)
Definition sumDur (ts : list BuilderTask) : Z :=
  fold_left (fun acc t => acc + duration t) ts 0.

Inductive TaskValidation := TasksOk | Overfill (block : Energy).

(** [validateTasks]: [if (totalTaskDuration > blockDuration)] it opens the
    overfill popup [{ open: true, block }] and returns [false]. Its only
    caller is [handleSaveTasks], which no control of the page uses. *)
Definition validateTasks (times : TimeBlock) (block : Energy) (ts : list BuilderTask)
    : TaskValidation :=
  let blockDuration := getBlockDuration (startTime times) (endTime times) in
  let totalTaskDuration := sumDur ts in
  if gtNum totalTaskDuration blockDuration then Overfill block else TasksOk.

(** [getCurrentBlockRemaining]: [Math.max(0, total - used)], NaN when
    [total] is. *)
Definition getCurrentBlockRemaining (times : TimeBlock) (ts : list BuilderTask)
    : option Z :=
  let total := getBlockDuration (startTime times) (endTime times) in
  option_map (fun total => Z.max 0 (total - sumDur ts)) total.

Inductive AddCheck := AddOk | AddRejected (excess : Z).

(** The add-task button: [if (dur > remaining) setNewTaskError(`Duration
    exceeds remaining time by ${dur - remaining} min`)]. *)
Definition addTaskCheck (times : TimeBlock) (ts : list BuilderTask) (dur : Z) : AddCheck :=
  match getCurrentBlockRemaining times ts with
  | Some remaining => if remaining <? dur then AddRejected (dur - remaining) else AddOk
  | None => AddOk
  end.

Definition excessMessage (n : Z) : string :=
  "Duration exceeds remaining time by " +:+ pretty n +:+ " min".


(* ------------------------------------------------------------------ *)
(** ** Task PATCH route *)

(** A [tasks] row. *)
Record TaskRow := mkTaskRow {
  session_id : Z; name : string; description : string;
  row_duration : option Z; row_status : TaskStatus }.

(** The rows the route reaches: [tasks] by id, and the block times of each
    session (through its template). *)
Record Db := mkDb { db_tasks : gmap Z TaskRow; db_blocks : gmap Z TimeBlock }.

(** The JSON body: [body.id] and the optional fields passed to [updateTask]. *)
Record PatchBody := mkPatchBody {
  body_id : option Z; body_name : option string; body_description : option string;
  body_duration : option Z; body_status : option TaskStatus }.

Definition applyUpdate (b : PatchBody) (r : TaskRow) : TaskRow :=
  mkTaskRow (session_id r)
    (from_option id (name r) (body_name b))
    (from_option id (description r) (body_description b))
    (match body_duration b with Some d => Some d | None => row_duration r end)
    (from_option id (row_status r) (body_status b)).

(** The column constraint [duration_minutes INT CHECK (duration_minutes > 0)]
    of the [tasks] table; a NULL duration passes it. *)
Definition durationCheck (d : option Z) : bool :=
  match d with Some n => 0 <? n | None => true end.

(** [updateTask]: [.update(input).eq('id', id).select().single()]. The
    update fails when no row matches the id ([.single()]) and when the new
    row breaks the [duration_minutes] CHECK. *)
Definition updateTask (db : Db) (id : Z) (b : PatchBody) : option (TaskRow * Db) :=
  match db_tasks db !! id with
  | Some r =>
      let r' := applyUpdate b r in
      if durationCheck (row_duration r') then
        Some (r', mkDb (<[id := r']> (db_tasks db)) (db_blocks db))
      else None
  | None => None
  end.

Inductive PatchResponse := PatchOk (row : TaskRow) | PatchErr (code : Z) (error : string).

(** [PATCH]: [if (!body?.id)] 400, else [updateTask], errors mapped to 500. *)
Definition PATCH (db : Db) (b : PatchBody) : PatchResponse * Db :=
  match body_id b with
  | None | Some 0 => (PatchErr 400 "id is required", db)
  | Some id =>
      match updateTask db id b with
      | Some (r, db') => (PatchOk r, db')
      | None => (PatchErr 500 "Failed to update task", db)
      end
  end.

(** The durations of the tasks of a session, as stored. *)
Definition sessionLoad (db : Db) (sid : Z) : Z :=
  map_fold (fun _ r acc =>
    if session_id r =? sid then acc + from_option id 0 (row_duration r) else acc)
    0 (db_tasks db).

(** A 60-minute block (session 1, 09:00-10:00) with tasks of 40 and 10. *)
Definition sample_db : Db :=
  mkDb (<[1 := mkTaskRow 1 "Write" "" (Some 40) Active]>
         (<[2 := mkTaskRow 1 "Read" "" (Some 10) Active]> ∅))
       (<[1 := mkBlock (hm 9 0) (hm 10 0)]> ∅).

Definition block_9_10 : TimeBlock := mkBlock (hm 9 0) (hm 10 0).

Definition patch_task2_50 : PatchBody := mkPatchBody (Some 2) None None (Some 50) None.

(* ------------------------------------------------------------------ *)
(** ** Reading time strings: [t.split(':').map(Number)] *)

(** The value of an ASCII decimal digit. *)
Definition digitVal (c : ascii) : option Z :=
  let n := Z.of_nat (nat_of_ascii c) in
  if (48 <=? n) && (n <=? 57) then Some (n - 48) else None.

Fixpoint digitsVal (acc : Z) (s : string) : option Z :=
  match s with
  | EmptyString => Some acc
  | String c s' =>
      match digitVal c with
      | Some d => digitsVal (acc * 10 + d) s'
      | None => None
      end
  end.

(** [Number(s)] on strings of decimal digits, such as the fields of the
    ["HH:MM"] and ["HH:MM:SS"] times the code builds and the decimal text of
    an id (the empty string reads as 0). On these it is exact. Every other
    string gives [None], which stands for a string outside this model: JS
    [Number] also reads a sign, surrounding white space, a fraction, an
    exponent or a hex literal, and gives NaN only on the rest, so the
    statements below only use [Number] on digit strings. *)
Definition Number (s : string) : option Z := digitsVal 0 s.

(** [s.split(sep)] *)
Fixpoint str_split (sep : ascii) (s : string) : list string :=
  match s with
  | EmptyString => [EmptyString]
  | String c s' =>
      let rest := str_split sep s' in
      if ascii_dec c sep then EmptyString :: rest
      else match rest with
           | w :: ws => String c w :: ws
           | [] => [String c EmptyString]
           end
  end.

(** [const [h, m] = t.split(':').map(Number)]: the two clock fields of a
    time string of digit fields; [None] when a field is missing or is not a
    digit string (see [Number]). *)
Definition parseClock (t : string) : option Clock :=
  match str_split ":" t with
  | h :: m :: _ =>
      match Number h, Number m with
      | Some h, Some m => Some (mkClock h m)
      | _, _ => None
      end
  | _ => None
  end.

(** [toMin] on the time string itself: [h*60+m]; [None] as for [parseClock]. *)
Definition toMinS (t : string) : option Z := option_map toMin (parseClock t).

(* ------------------------------------------------------------------ *)
(** ** Applying a proposal (POST of the insights route) *)

(** A [session_templates] row as the route selects it:
    [id, energy_type, start_time, end_time]. *)
Record Template := mkTemplate {
  tpl_id : Z; energy_type : Energy; tpl_start : Clock; tpl_end : Clock }.

(** The writes the route issues: [.update({ start_time, end_time }).eq('id', id)]
    and [.insert({ user_id, energy_type, start_time, end_time })]. *)
Inductive TemplateWrite :=
  | UpdateTemplate (id : Z) (start_time end_time : string)
  | InsertTemplate (energy : Energy) (start_time end_time : string).

(** The body [{ type, target: { start, end } }]; [None] is a missing
    field (or a missing [target]). *)
Record ProposalPayload := mkPayload {
  pl_type : option string; pl_start : option string; pl_end : option string }.

Inductive ApplyResponse := ApplyOk | ApplyErr (code : Z) (error : string).

(** The route's [fromMin]:
    [`${pad(Math.floor((m+1440)%1440/60))}:${pad((m+1440)%60)}`]. *)
Definition fromMinWrap (m : Z) : string :=
  pad (Z.rem (m + 1440) 1440 / 60) +:+ ":" +:+ pad (Z.rem (m + 1440) 60).

(** [rows.find((o) => o.energy_type === e)] *)
Definition findTemplate (e : Energy) (rows : list Template) : option Template :=
  List.find (fun r => Energy_eqb (energy_type r) e) rows.

(** A truthy string field: present and non-empty. *)
Definition truthy (o : option string) : bool :=
  match o with Some s => negb (String.eqb s "") | None => false end.

(** [POST] of the insights route. [user] is the authenticated user (if any)
    and [rows] the user's templates in table order (the [existing] High row
    is the first High row). The database calls succeed. A target that is
    not a time of digit fields ([toMinS] is [None]) is answered with 500 and
    no write, as for a ["NaN:NaN"] time that the time column refuses; the
    route reads some such targets as numbers (see [Number]), so no
    statement below is about that branch. *)
Definition POST (user : option string) (body : ProposalPayload) (rows : list Template)
    : ApplyResponse * list TemplateWrite :=
  match user with
  | None => (ApplyErr 401 "Authentication required", [])
  | Some _ =>
      if negb (match pl_type body with
               | Some t => String.eqb t "shift_high_block"
               | None => false
               end)
         || negb (truthy (pl_start body)) || negb (truthy (pl_end body))
      then (ApplyErr 400 "Invalid proposal payload", [])
      else
        match toMinS (from_option id "" (pl_start body)),
              toMinS (from_option id "" (pl_end body)) with
        | Some hS, Some hE0 =>
            (* if (hE <= hS) hE = hS + 60; *)
            let hE := if hE0 <=? hS then hS + 60 else hE0 in
            let highW :=
              match findTemplate High rows with
              | Some r =>
                  if tpl_id r =? 0 then InsertTemplate High (fromMinWrap hS) (fromMinWrap hE)
                  else UpdateTemplate (tpl_id r) (fromMinWrap hS) (fromMinWrap hE)
              | None => InsertTemplate High (fromMinWrap hS) (fromMinWrap hE)
              end in
            let medium := findTemplate Medium rows in
            let low := findTemplate Low rows in
            let mediumW :=
              match medium with
              | Some r =>
                  let mS := toMin (tpl_start r) in let mE := toMin (tpl_end r) in
                  let mS := if mS <? hE then hE else mS in
                  let mE := if mE <=? mS then mS + 60 else mE in
                  [UpdateTemplate (tpl_id r) (fromMinWrap mS) (fromMinWrap mE)]
              | None => []
              end in
            let lowW :=
              match low with
              | Some r =>
                  (* const midRef = medium ? toMin(medium.end_time) : hE; *)
                  let midRef := match medium with Some m => toMin (tpl_end m) | None => hE end in
                  let lS := toMin (tpl_start r) in let lE := toMin (tpl_end r) in
                  let lS := if lS <? midRef then midRef else lS in
                  let lE := if lE <=? lS then lS + 60 else lE in
                  [UpdateTemplate (tpl_id r) (fromMinWrap lS) (fromMinWrap lE)]
              | None => []
              end in
            (ApplyOk, highW :: mediumW ++ lowW)
        | _, _ => (ApplyErr 500 "Failed to apply proposal", [])
        end
  end.

(** The window [(start_time, end_time)] a template write sets. *)
Definition writeWindow (w : TemplateWrite) : string * string :=
  match w with UpdateTemplate _ s e | InsertTemplate _ s e => (s, e) end.

(** The payload the reports page sends for a proposal. *)
Definition payloadOf (p : Proposal) : ProposalPayload :=
  mkPayload (Some (ptype p)) (Some (target_start p)) (Some (target_end p)).

(* ------------------------------------------------------------------ *)
(** ** Schedule builder: time edit, DB edit check, quick add *)

(** [times[key]] for the block of an energy level. *)
Definition blockOf (t : Times) (e : Energy) : TimeBlock :=
  match e with High => high t | Medium => medium t | Low => low t end.

Inductive TimeEditOutcome := TimeEditSaved (t : Times) | TimeEditError (msg : string).

(** The Save button of the time edit modal: the end must be after the start,
    then the edited block is propagated by [adjustAdjacentForChange]; the
    result is written to the three templates. *)
Definition saveTimeEdit (times : Times) (energy : Energy) (s e : Clock) : TimeEditOutcome :=
  if negb (toMin s <? toMin e) then TimeEditError "End time must be after start time."
  else
    let nextTimes := setBlock times energy (mkBlock s e) in
    TimeEditSaved (adjustAdjacentForChange nextTimes energy s e).

(** A block of [dayBlocks] (today's blocks loaded from the database): its
    energy and its tasks' [id] and [duration_minutes]. *)
Record DayBlock := mkDayBlock { block_energy : Energy; block_tasks : list (Z * option Z) }.

(** [validateDbEditDuration]; [dayBlocks] is [None] before the blocks are
    loaded. [true] lets the edit through. *)
Definition validateDbEditDuration (dayBlocks : option (list DayBlock)) (times : Times)
    (energy : Energy) (taskId proposedMinutes : Z) : bool :=
  match dayBlocks with
  | None => true
  | Some bs =>
      let t := blockOf times energy in
      let blockDuration := getBlockDuration (startTime t) (endTime t) in
      match List.find (fun b => Energy_eqb (block_energy b) energy) bs with
      | None => true
      | Some b =>
          let otherSum := fold_left (fun acc '(tid, d) =>
              acc + (if tid =? taskId then 0 else from_option id 0 d)) (block_tasks b) 0 in
          let total := otherSum + Z.max 0 proposedMinutes in
          negb (gtNum total blockDuration)
      end
  end.

Inductive QuickAddOutcome :=
  | QuickAddIgnored
  | QuickAddError (msg : string)
  | QuickAdded (ts : list BuilderTask).

(** The quick-add button: [if (!newTaskName || !newTaskDuration) return;],
    the remaining-time check, then the task is appended to the block. The
    duration input holds [''] ([None]) or [Math.max(1, parseInt(v) || 0)]. *)
Definition quickAdd (times : TimeBlock) (ts : list BuilderTask) (newTaskName : string)
    (newTaskDuration : option Z) : QuickAddOutcome :=
  match newTaskDuration with
  | None => QuickAddIgnored
  | Some dur =>
      if String.eqb newTaskName "" || (dur =? 0) then QuickAddIgnored
      else match addTaskCheck times ts dur with
           | AddRejected n => QuickAddError (excessMessage n)
           | AddOk => QuickAdded (ts ++ [mkBuilderTask newTaskName dur])
           end
  end.

(* ------------------------------------------------------------------ *)
(** ** Theme and day parts (time helpers) *)

Record Segment := mkSegment { seg_energy : Energy; seg_s : Z; seg_e : Z }.

(** [(a,b) => (b.e - a.e)] *)
Definition byEndDesc (a b : Segment) : bool := seg_e b <=? seg_e a.

Definition energyTheme (e : Energy) : string :=
  match e with
  | High => "soft-energy-high animated-gradient"
  | Medium => "soft-energy-medium animated-gradient"
  | Low => "soft-energy-low animated-gradient"
  end.

(** [getEnergyThemeForNow(templates, now)] with
    [nowMin = now.getHours() * 60 + now.getMinutes()]; a template is its
    energy, start and end. *)
Definition getEnergyThemeForNow (templates : list (Energy * Clock * Clock)) (nowMin : Z)
    : string :=
  match templates with
  | [] => "soft-energy-low animated-gradient"
  | _ =>
      let segments := map (fun '(e, s, t) => mkSegment e (toMin s) (toMin t)) templates in
      let inRange := List.find (fun seg =>
          if seg_s seg <=? seg_e seg then (seg_s seg <=? nowMin) && (nowMin <? seg_e seg)
          else (seg_s seg <=? nowMin) || (nowMin <? seg_e seg)) segments in
      let lastPast := head (sort_by byEndDesc (List.filter (fun seg =>
          if seg_s seg <=? seg_e seg then seg_e seg <=? nowMin else true) segments)) in
      let energy :=
        match inRange with
        | Some seg => seg_energy seg
        | None => match lastPast with Some seg => seg_energy seg | None => Low end
        end in
      energyTheme energy
  end.

(** The three templates of a schedule, in the order the page passes them. *)
Definition themeTemplates (t : Times) : list (Energy * Clock * Clock) :=
  [(High, startTime (high t), endTime (high t));
   (Medium, startTime (medium t), endTime (medium t));
   (Low, startTime (low t), endTime (low t))].

Inductive Block := Morning | Afternoon | Night.

(** [getCurrentBlock(now)] on [now.getHours()]. *)
Definition getCurrentBlock (hour : Z) : Block :=
  if (5 <=? hour) && (hour <? 12) then Morning
  else if (12 <=? hour) && (hour <? 19) then Afternoon
  else Night.

(** The [timeOfDayPatterns] bucket of a session whose template starts at
    [hour]. *)
Definition dayPart (hour : Z) : Block :=
  if (6 <=? hour) && (hour <? 12) then Morning
  else if (12 <=? hour) && (hour <? 18) then Afternoon
  else Night.

(* ------------------------------------------------------------------ *)
(** ** Summary aggregates of [fetchUserDataSummary] *)

Definition sumZ (l : list Z) : Z := fold_right Z.add 0 l.

(** [tasks.filter((task) => task.status === 'completed').length] *)
Definition completedCount (s : Session) : Z := Z.of_nat (length (List.filter isCompleted (tasks s))).

(** [completedTasks] and [totalTasks] *)
Definition completedTasks (ss : list Session) : Z :=
  fold_left (fun acc s => acc + completedCount s) ss 0.

Definition totalTasks (ss : list Session) : Z :=
  fold_left (fun acc s => acc + Z.of_nat (length (tasks s))) ss 0.

(** [completionRate: totalTasks > 0 ? (completedTasks / totalTasks) * 100 : 0] *)
Definition completionRateOf (ss : list Session) : Q :=
  if 0 <? totalTasks ss then (inject_Z (completedTasks ss) / inject_Z (totalTasks ss) * 100)%Q
  else 0%Q.

(** [consistencyScore = totalSessions > 0 ?
      Math.min(100, (completedTasks / Math.max(totalTasks, 1)) * 100) : 0] *)
Definition consistencyScoreOf (ss : list Session) : Q :=
  if 0 <? Z.of_nat (length ss) then
    Qmin 100 (inject_Z (completedTasks ss) / inject_Z (Z.max (totalTasks ss) 1) * 100)
  else 0%Q.

(** Sessions counted in a [timeOfDayPatterns] bucket: those with a start
    time whose hour falls in it. *)
Definition timeOfDaySessions (ss : list Session) (b : Block) : Z :=
  Z.of_nat (length (List.filter (fun s =>
    match start_time s with
    | Some c => match dayPart (hh c), b with
                | Morning, Morning | Afternoon, Afternoon | Night, Night => true
                | _, _ => false
                end
    | None => false
    end) ss)).

(* ------------------------------------------------------------------ *)
(** ** Task DELETE route *)

Inductive DeleteResponse := DeleteOk | DeleteErr (code : Z) (error : string).

(** [DELETE]: [searchParams.get('id')]; an absent or empty parameter gives
    400; otherwise [deleteTask(Number(id))] runs
    [.delete().eq('id', id)], which removes the matching row if there is
    one. An id that is not a digit string is answered with 500 here; see
    [Number] for the strings this branch stands for. *)
Definition DELETE (db : Db) (idParam : option string) : DeleteResponse * Db :=
  if negb (truthy idParam) then (DeleteErr 400 "id is required", db)
  else match Number (from_option id "" idParam) with
       | Some n => (DeleteOk, mkDb (delete n (db_tasks db)) (db_blocks db))
       | None => (DeleteErr 500 "Failed to delete task", db)
       end.

(* ------------------------------------------------------------------ *)
(** ** Sample inputs *)

(** Two lists of day blocks that agree on every task but [taskId]: same
    energies, same task ids in the same order, and the same durations for
    every task other than [taskId]. *)
Definition sameOtherDurations (taskId : Z) (b1 b2 : DayBlock) : Prop :=
  block_energy b1 = block_energy b2 /\
  Forall2 (fun x y => fst x = fst y /\ (fst x <> taskId -> snd x = snd y))
    (block_tasks b1) (block_tasks b2).

(** The templates of the example schedule, as rows with ids 1 to 3. *)
Definition example_templates : list Template :=
  [mkTemplate 1 High (hm 6 0) (hm 12 0); mkTemplate 2 Medium (hm 12 0) (hm 18 0);
   mkTemplate 3 Low (hm 18 0) (hm 22 0)].

(** High 09:00-12:00, Medium 11:00-14:00 and Low 13:30-15:00: each block
    starts before the previous one ends. *)
Definition chained_overlap_times : Times :=
  mkTimes (mkBlock (hm 9 0) (hm 12 0)) (mkBlock (hm 11 0) (hm 14 0))
          (mkBlock (hm 13 30) (hm 15 0)).

(** High 09:00-12:00 and Medium 11:00-14:00 overlap; Low 15:00-16:00. *)
Definition overlapping_times : Times :=
  mkTimes (mkBlock (hm 9 0) (hm 12 0)) (mkBlock (hm 11 0) (hm 14 0))
          (mkBlock (hm 15 0) (hm 16 0)).

(* ------------------------------------------------------------------ *)
(** ** Interval lemmas *)

Lemma toMin_fromMin (x : Z) : 0 <= x -> toMin (fromMin x) = x.
Proof.
  intros Hx. unfold toMin, fromMin; cbn [hh mm].
  rewrite Z.rem_mod_nonneg by lia.
  pose proof (Z.div_mod x 60 ltac:(lia)). lia.
Qed.

Lemma fromMin_toMin (c : Clock) : valid_clock c -> fromMin (toMin c) = c.
Proof.
  destruct c as [h m]. unfold valid_clock, fromMin, toMin. cbn [hh mm]. intros [Hh Hm].
  rewrite Z.rem_mod_nonneg by lia.
  replace (h * 60 + m) with (m + h * 60) by lia.
  rewrite Z.div_add by lia. rewrite Z_mod_plus_full.
  rewrite Z.div_small, Z.mod_small by lia. reflexivity.
Qed.

Lemma valid_clock_nonneg (c : Clock) : valid_clock c -> 0 <= toMin c.
Proof. unfold valid_clock, toMin. lia. Qed.

Lemma valid_clock_lt_day (c : Clock) : valid_clock c -> toMin c < 1440.
Proof. unfold valid_clock, toMin. lia. Qed.

Ltac fromMin_simpl :=
  repeat match goal with
  | |- context [toMin (fromMin ?x)] => rewrite (toMin_fromMin x) by lia
  end.

Ltac valid_facts :=
  repeat match goal with
  | H : valid_clock ?c |- _ =>
      let H1 := fresh in let H2 := fresh in
      pose proof (valid_clock_nonneg c H) as H1;
      pose proof (valid_clock_lt_day c H) as H2; clear H
  end.

Ltac destruct_valid :=
  repeat match goal with
  | H : valid_times _ |- _ => destruct H as (? & ? & ?)
  | H : valid_block _ |- _ => destruct H as (? & ? & ?)
  | H : ordered _ |- _ => destruct H
  | H : _ /\ _ |- _ => destruct H
  end; valid_facts.

Lemma overlap_false_of_disjoint (aS aE bS bE : Z) :
  aE <= bS \/ bE <= aS -> overlap aS aE bS bE = false.
Proof.
  unfold overlap. intros [H|H].
  - rewrite (proj2 (Z.ltb_ge bS aE)) by lia. apply andb_false_r.
  - rewrite (proj2 (Z.ltb_ge aS bE)) by lia. reflexivity.
Qed.

Lemma hasOverlapSimple_false (t : Times) :
  pairwise_disjoint t -> hasOverlapSimple t = false.
Proof.
  unfold pairwise_disjoint, disjoint, hasOverlapSimple. intros (H1 & H2 & H3).
  rewrite !overlap_false_of_disjoint by lia. reflexivity.
Qed.

Lemma disjoint_of_hasOverlapSimple (t : Times) :
  hasOverlapSimple t = false -> pairwise_disjoint t.
Proof.
  unfold pairwise_disjoint, disjoint, hasOverlapSimple, overlap.
  intros H. apply orb_false_iff in H as [H H3]. apply orb_false_iff in H as [H1 H2].
  apply andb_false_iff in H1, H2, H3.
  destruct H1 as [H1|H1], H2 as [H2|H2], H3 as [H3|H3];
    apply Z.ltb_ge in H1, H2, H3; lia.
Qed.

(* ------------------------------------------------------------------ *)
(** ** Full re-chain resolution *)

(** C1: on three blocks entered as ["HH:MM"] fields with end after start,
    [autoAdjustContinuous] returns a pairwise non-overlapping triple: High is
    kept, Medium and Low keep their durations and are only shifted later. The
    resolver never fails, so no unresolvable-overlap error arises. *)
Theorem autoAdjustContinuous_resolves (t : Times) :
  valid_times t ->
  pairwise_disjoint (autoAdjustContinuous t) /\
  hasOverlapSimple (autoAdjustContinuous t) = false /\
  toMin (startTime (high (autoAdjustContinuous t))) = toMin (startTime (high t)) /\
  toMin (endTime (high (autoAdjustContinuous t))) = toMin (endTime (high t)) /\
  blockDur (medium (autoAdjustContinuous t)) = blockDur (medium t) /\
  blockDur (low (autoAdjustContinuous t)) = blockDur (low t) /\
  toMin (startTime (medium t)) <= toMin (startTime (medium (autoAdjustContinuous t))) /\
  toMin (startTime (low t)) <= toMin (startTime (low (autoAdjustContinuous t))).
Proof.
  intros Hv.
  assert (Hd : pairwise_disjoint (autoAdjustContinuous t) /\
    toMin (startTime (high (autoAdjustContinuous t))) = toMin (startTime (high t)) /\
    toMin (endTime (high (autoAdjustContinuous t))) = toMin (endTime (high t)) /\
    blockDur (medium (autoAdjustContinuous t)) = blockDur (medium t) /\
    blockDur (low (autoAdjustContinuous t)) = blockDur (low t) /\
    toMin (startTime (medium t)) <= toMin (startTime (medium (autoAdjustContinuous t))) /\
    toMin (startTime (low t)) <= toMin (startTime (low (autoAdjustContinuous t)))).
  { destruct t as [H M L]. destruct_valid.
    unfold autoAdjustContinuous, pairwise_disjoint, disjoint, blockDur, dur in *.
    cbn [high medium low startTime endTime] in *.
    destruct (Z.ltb_spec (toMin (startTime M)) (toMin (endTime H)));
    match goal with
    | |- context [if (?a <? ?b) then _ else _] => destruct (Z.ltb_spec a b)
    end; fromMin_simpl; lia. }
  destruct Hd as (Hd & Hrest). split; [exact Hd|]. split; [|exact Hrest].
  now apply hasOverlapSimple_false.
Qed.

Lemma example_times_valid : valid_times example_times.
Proof. unfold valid_times, valid_block, valid_clock, toMin; cbn. lia. Qed.

Lemma chained_overlap_times_valid : valid_times chained_overlap_times.
Proof. unfold valid_times, valid_block, valid_clock, toMin; cbn. lia. Qed.

(** C1 witness: on High 09:00-12:00, Medium 11:00-14:00, Low 13:30-15:00,
    which overlap, Medium is shifted to 12:00-15:00 and Low to 15:00-16:30;
    the result is pairwise disjoint and keeps every duration. *)
Lemma autoAdjustContinuous_resolves_witness :
  valid_times chained_overlap_times /\
  hasOverlapSimple chained_overlap_times = true /\
  pairwise_disjoint (autoAdjustContinuous chained_overlap_times) /\
  hasOverlapSimple (autoAdjustContinuous chained_overlap_times) = false /\
  toMin (startTime (medium (autoAdjustContinuous chained_overlap_times))) = 720 /\
  toMin (endTime (medium (autoAdjustContinuous chained_overlap_times))) = 900 /\
  toMin (startTime (low (autoAdjustContinuous chained_overlap_times))) = 900 /\
  toMin (endTime (low (autoAdjustContinuous chained_overlap_times))) = 990 /\
  blockDur (medium (autoAdjustContinuous chained_overlap_times))
    = blockDur (medium chained_overlap_times) /\
  blockDur (low (autoAdjustContinuous chained_overlap_times))
    = blockDur (low chained_overlap_times).
Proof.
  destruct (autoAdjustContinuous_resolves chained_overlap_times chained_overlap_times_valid)
    as (Hd & Ho & _ & _ & Hm & Hl & _).
  split; [exact chained_overlap_times_valid|].
  split; [vm_compute; reflexivity|].
  split; [exact Hd|]. split; [exact Ho|].
  split; [vm_compute; reflexivity|]. split; [vm_compute; reflexivity|].
  split; [vm_compute; reflexivity|]. split; [vm_compute; reflexivity|].
  split; [exact Hm|exact Hl].
Defined.

(** C6: saving three valid blocks that are already pairwise non-overlapping
    (in any chronological order) keeps them unchanged: [handleSaveTimes]
    only calls the resolver when [hasOverlapSimple] reports an overlap. *)
Theorem handleSaveTimes_disjoint_unchanged (confirm : bool) (t : Times) :
  valid_times t -> pairwise_disjoint t -> handleSaveTimes confirm t = Saved t.
Proof.
  intros Hv Hd. unfold handleSaveTimes.
  rewrite (hasOverlapSimple_false t Hd).
  destruct Hv as ((_ & _ & Hh) & (_ & _ & Hm) & (_ & _ & Hl)).
  unfold validateTimes.
  rewrite (proj2 (Z.ltb_lt _ _) Hh), (proj2 (Z.ltb_lt _ _) Hm),
    (proj2 (Z.ltb_lt _ _) Hl).
  reflexivity.
Qed.

(** C6 witness. *)
Lemma handleSaveTimes_disjoint_unchanged_witness :
  handleSaveTimes true shuffled_times = Saved shuffled_times.
Proof.
  apply handleSaveTimes_disjoint_unchanged.
  - unfold valid_times, valid_block, valid_clock, toMin; cbn. lia.
  - unfold pairwise_disjoint, disjoint, toMin; cbn. lia.
Defined.

(** C10: [autoAdjustContinuous] does not reduce shifted boundaries modulo
    1440: on valid same-day blocks it returns Medium and Low ends past the
    end of the day, rendered ["29:00"] and ["33:00"]. *)
Theorem autoAdjustContinuous_past_midnight :
  valid_times late_high_times /\
  toMin (endTime (medium (autoAdjustContinuous late_high_times))) = 1740 /\
  toMin (endTime (low (autoAdjustContinuous late_high_times))) = 1980 /\
  1440 < 1740 /\ 1440 < 1980 /\
  hh (endTime (medium (autoAdjustContinuous late_high_times))) = 29 /\
  hh (endTime (low (autoAdjustContinuous late_high_times))) = 33 /\
  showClock (endTime (medium (autoAdjustContinuous late_high_times))) = "29:00" /\
  showClock (endTime (low (autoAdjustContinuous late_high_times))) = "33:00".
Proof.
  split.
  - unfold valid_times, valid_block, valid_clock, toMin; cbn. lia.
  - vm_compute. repeat split; reflexivity.
Qed.

(* ------------------------------------------------------------------ *)
(** ** Single-block edit propagation *)

Ltac case_ifs :=
  repeat (cbv beta iota zeta; fromMin_simpl;
    match goal with
    | |- context [if ?a <? ?b then _ else _] => destruct (Z.ltb_spec a b)
    | |- context [if ?a <=? ?b then _ else _] => destruct (Z.leb_spec a b)
    end); cbv beta iota zeta; fromMin_simpl.

(** C2 counterexample: on the example schedule, editing Medium to
    11:00-17:00 makes its start precede High's end. Moving only the edited
    block (to 12:00-17:00) would remove the collision, yet the code keeps
    Medium exactly as entered and trims the non-edited High block to end at
    11:00: the earlier block is adjusted, not the edited or later one. *)
Lemma adjustAdjacentForChange_counterexample :
  pairwise_disjoint (mkTimes (high example_times) (mkBlock (hm 12 0) (hm 17 0))
                             (low example_times)) /\
  high (adjustAdjacentForChange example_times Medium (hm 11 0) (hm 17 0))
    <> high example_times /\
  endTime (high (adjustAdjacentForChange example_times Medium (hm 11 0) (hm 17 0)))
    = hm 11 0 /\
  medium (adjustAdjacentForChange example_times Medium (hm 11 0) (hm 17 0))
    = mkBlock (hm 11 0) (hm 17 0).
Proof.
  split.
  - unfold pairwise_disjoint, disjoint, toMin; cbn. lia.
  - vm_compute. split; [|split; reflexivity]. intros Heq. discriminate Heq.
Qed.

(** C2 (amended): on a valid schedule in canonical order and a valid edit
    [s < e], [adjustAdjacentForChange] keeps the edited block as entered.
    An earlier block is never moved: when the edited block is Medium (resp.
    Low) and its start precedes High's (resp. Medium's) end, the earlier,
    non-edited block keeps its start and its end is trimmed back to the
    edited start, floored at its start + 1 minute. A later block is only
    pushed forward: its start moves to the end of the block before it when
    that end passes it (Medium after an edited High; Low after an edited
    High or Medium, or after Medium once pushed), and its end is kept,
    floored at its new start + 1 minute. *)
Theorem adjustAdjacentForChange_trims_previous (base : Times) (changed : Energy)
    (s e : Clock) :
  valid_times base -> ordered base -> valid_clock s -> valid_clock e ->
  toMin s < toMin e ->
  (changed = Medium ->
     let r := adjustAdjacentForChange base changed s e in
     startTime (high r) = startTime (high base) /\
     toMin (endTime (high r))
       = (if toMin s <? toMin (endTime (high base))
          then Z.max (toMin (startTime (high base)) + 1) (toMin s)
          else toMin (endTime (high base))) /\
     medium r = mkBlock s e /\
     toMin (startTime (low r)) = Z.max (toMin (startTime (low base))) (toMin e) /\
     toMin (endTime (low r))
       = Z.max (toMin (endTime (low base)))
               (Z.max (toMin (startTime (low base))) (toMin e) + 1)) /\
  (changed = Low ->
     let r := adjustAdjacentForChange base changed s e in
     high r = high base /\
     startTime (medium r) = startTime (medium base) /\
     toMin (endTime (medium r))
       = (if toMin s <? toMin (endTime (medium base))
          then Z.max (toMin (startTime (medium base)) + 1) (toMin s)
          else toMin (endTime (medium base))) /\
     low r = mkBlock s e) /\
  (changed = High ->
     let r := adjustAdjacentForChange base changed s e in
     let mS := Z.max (toMin (startTime (medium base))) (toMin e) in
     let mE := Z.max (toMin (endTime (medium base))) (mS + 1) in
     let lS := Z.max (toMin (startTime (low base))) mE in
     high r = mkBlock s e /\
     toMin (startTime (medium r)) = mS /\
     toMin (endTime (medium r)) = mE /\
     toMin (startTime (low r)) = lS /\
     toMin (endTime (low r)) = Z.max (toMin (endTime (low base))) (lS + 1)).
Proof.
  intros Hv Ho Hs He Hse.
  destruct base as [[hs he] [ms me] [ls le]].
  pose proof Hv as ((Vhs & Vhe & _) & (Vms & Vme & _) & (Vls & Vle & _)).
  cbn [high medium low startTime endTime] in *.
  pose proof (fromMin_toMin s Hs) as Es. pose proof (fromMin_toMin e He) as Ee.
  pose proof (fromMin_toMin hs Vhs) as Ehs. pose proof (fromMin_toMin he Vhe) as Ehe.
  pose proof (fromMin_toMin ms Vms) as Ems.
  destruct_valid. cbn [high medium low startTime endTime] in *.
  split; [|split]; intros ->; cbv zeta;
    unfold adjustAdjacentForChange, setBlock, Energy_eqb;
    cbn [high medium low startTime endTime]; case_ifs;
    cbn [high medium low startTime endTime]; fromMin_simpl;
    rewrite ?Es, ?Ee, ?Ehs, ?Ehe, ?Ems;
    repeat split; try reflexivity;
    repeat match goal with
    | H : context [if ?a <=? ?b then _ else _] |- _ => destruct (Z.leb_spec a b)
    end; lia.
Qed.

(** C2 witness: on the example schedule, editing Medium to 11:00-17:00
    trims High to end at 11:00, and editing Medium to 12:00-19:00 pushes
    Low's start from 18:00 to 19:00. *)
Lemma adjustAdjacentForChange_trims_previous_witness :
  toMin (endTime (high (adjustAdjacentForChange example_times Medium (hm 11 0) (hm 17 0))))
    = 660 /\
  medium (adjustAdjacentForChange example_times Medium (hm 11 0) (hm 17 0))
    = mkBlock (hm 11 0) (hm 17 0) /\
  toMin (startTime (low (adjustAdjacentForChange example_times Medium (hm 12 0) (hm 19 0))))
    = 1140.
Proof.
  destruct (adjustAdjacentForChange_trims_previous example_times Medium (hm 11 0) (hm 17 0)
    example_times_valid
    ltac:(unfold ordered, toMin; cbn; lia)
    ltac:(unfold valid_clock; cbn; lia)
    ltac:(unfold valid_clock; cbn; lia)
    ltac:(unfold toMin; cbn; lia)) as [HM _].
  destruct (HM eq_refl) as (_ & H1 & H2 & _).
  destruct (adjustAdjacentForChange_trims_previous example_times Medium (hm 12 0) (hm 19 0)
    example_times_valid
    ltac:(unfold ordered, toMin; cbn; lia)
    ltac:(unfold valid_clock; cbn; lia)
    ltac:(unfold valid_clock; cbn; lia)
    ltac:(unfold toMin; cbn; lia)) as [HM' _].
  destruct (HM' eq_refl) as (_ & _ & _ & H3 & _).
  split; [rewrite H1|split; [exact H2|rewrite H3]]; vm_compute; reflexivity.
Defined.

(* ------------------------------------------------------------------ *)
(** ** Stable insertion sort *)

Section SortBy.
Context {A : Type} (before : A -> A -> bool).
Hypothesis before_total : forall a c, before a c = false -> before c a = true.
Hypothesis before_trans :
  forall a c d, before a c = true -> before c d = true -> before a d = true.

Lemma insert_by_In (x y : A) (l : list A) :
  In y (insert_by before x l) <-> x = y \/ In y l.
Proof.
  induction l as [|z l IH]; cbn; [tauto|].
  destruct (before z x); cbn; rewrite ?IH; tauto.
Qed.

Lemma sort_by_In_acc (y : A) (l acc : list A) :
  In y (fold_left (fun acc x => insert_by before x acc) l acc) <-> In y l \/ In y acc.
Proof.
  revert acc. induction l as [|x l IH]; intros acc; cbn; [tauto|].
  rewrite IH, insert_by_In. tauto.
Qed.

Lemma sort_by_In (y : A) (l : list A) : In y (sort_by before l) <-> In y l.
Proof. unfold sort_by. rewrite sort_by_In_acc. cbn. tauto. Qed.

Lemma before_refl (a : A) : before a a = true.
Proof.
  destruct (before a a) eqn:E; [reflexivity|].
  pose proof (before_total a a E). congruence.
Qed.

Lemma insert_by_head_least (x : A) (l : list A) :
  head_least before l -> head_least before (insert_by before x l).
Proof.
  unfold head_least. destruct l as [|z l]; cbn.
  - intros _ m [= <-] y [<-|[]]. apply before_refl.
  - intros Hl m. destruct (before z x) eqn:Ezx; cbn.
    + intros [= <-] y [<-|Hy]; [apply before_refl|].
      apply insert_by_In in Hy as [<-|Hy]; [exact Ezx|].
      apply Hl; auto.
    + apply before_total in Ezx.
      intros [= <-] y [<-|[<-|Hy]]; [apply before_refl|exact Ezx|].
      apply (before_trans _ z); [exact Ezx|]. apply Hl; auto.
Qed.

Lemma sort_by_head_least (l : list A) : head_least before (sort_by before l).
Proof.
  unfold sort_by.
  assert (Hacc : forall acc, head_least before acc ->
    head_least before (fold_left (fun acc x => insert_by before x acc) l acc)).
  { induction l as [|x l IH]; intros acc Hacc; cbn; [exact Hacc|].
    apply IH, insert_by_head_least, Hacc. }
  apply Hacc. intros m Hm. discriminate.
Qed.

Lemma sort_by_head_None (l : list A) : head (sort_by before l) = None -> l = [].
Proof.
  destruct l as [|x l]; [reflexivity|]. intros H.
  assert (Hx : In x (sort_by before (x :: l))) by (apply sort_by_In; now left).
  destruct (sort_by before (x :: l)); [contradiction|discriminate].
Qed.
End SortBy.

(* ------------------------------------------------------------------ *)
(** ** Completion velocity analyzer *)

Lemma byAvgAsc_total (a c : HourRow) : byAvgAsc a c = false -> byAvgAsc c a = true.
Proof.
  unfold byAvgAsc. intros H. apply Qle_bool_iff.
  destruct (Qlt_le_dec (avgDuration c) (avgDuration a)) as [Hlt|Hle].
  - now apply Qlt_le_weak.
  - apply Qle_bool_iff in Hle. congruence.
Qed.

Lemma byAvgAsc_trans (a c d : HourRow) :
  byAvgAsc a c = true -> byAvgAsc c d = true -> byAvgAsc a d = true.
Proof.
  unfold byAvgAsc. rewrite !Qle_bool_iff. apply Qle_trans.
Qed.

Lemma In_hours24 (h : Z) : In h hours24 <-> 0 <= h < 24.
Proof.
  unfold hours24. rewrite in_map_iff. split.
  - intros (n & <- & Hn). apply in_seq in Hn. lia.
  - intros Hh. exists (Z.to_nat h). split; [lia|]. apply in_seq. lia.
Qed.

Lemma rowOf_hour (ss : list Session) (h : Z) : hour (rowOf ss h) = h.
Proof. unfold rowOf. now destruct (hourTotals ss h). Qed.

Lemma rowOf_completed (ss : list Session) (h : Z) :
  completed (rowOf ss h) = fst (hourTotals ss h).
Proof. unfold rowOf. now destruct (hourTotals ss h). Qed.

Lemma rowOf_avg (ss : list Session) (h : Z) :
  0 < fst (hourTotals ss h) ->
  avgDuration (rowOf ss h)
  = (inject_Z (snd (hourTotals ss h)) / inject_Z (fst (hourTotals ss h)))%Q.
Proof.
  unfold rowOf. destruct (hourTotals ss h) as [c d]; cbn. intros Hc.
  now rewrite (proj2 (Z.ltb_lt 0 c) Hc).
Qed.

Lemma In_eligible (ss : list Session) (r : HourRow) :
  In r (eligible ss) <->
  exists h, 0 <= h < 24 /\ r = rowOf ss h /\ 3 <= fst (hourTotals ss h).
Proof.
  unfold eligible. rewrite sort_by_In, filter_In. unfold byHour.
  rewrite in_map_iff. split.
  - intros ((h & <- & Hh) & Hc). apply In_hours24 in Hh.
    apply Z.leb_le in Hc. rewrite rowOf_completed in Hc. eauto.
  - intros (h & Hh & -> & Hc). split.
    + exists h. split; [reflexivity|]. now apply In_hours24.
    + apply Z.leb_le. now rewrite rowOf_completed.
Qed.

Lemma fastestHour_head (ss : list Session) :
  fastestHour ss = option_map hour (head (eligible ss)).
Proof. reflexivity. Qed.

Lemma eligible_head_least (ss : list Session) : head_least byAvgAsc (eligible ss).
Proof.
  unfold eligible. apply sort_by_head_least; [apply byAvgAsc_total|apply byAvgAsc_trans].
Qed.

(** C3 counterexample: on the synthetic history, hour 9 has exactly three
    completed tasks and so meets the sample-size threshold of 3: [fastestHour] is defined. *)
Lemma synthetic_fastestHour_counterexample : fastestHour synthetic_history <> None.
Proof. vm_compute. discriminate. Qed.

(** C3 (amended): on the synthetic history (three 10-minute tasks at hour 9,
    two 5-minute tasks at hour 14), hour 14 is below the sample-size threshold and excluded
    although its average 5 is lower than hour 9's average 10, hour 9 meets
    the threshold with its three samples, so [fastestHour] is 9, and
    [highestThroughputHour] is 9. *)
Theorem synthetic_history_hourly_stats :
  hourTotals synthetic_history 9 = (3, 30) /\
  hourTotals synthetic_history 14 = (2, 10) /\
  (avgDuration (rowOf synthetic_history 14) == 5)%Q /\
  (avgDuration (rowOf synthetic_history 9) == 10)%Q /\
  fastestHour synthetic_history = Some 9 /\
  fastestAvg synthetic_history = Some (30 # 3)%Q /\
  highestThroughputHour synthetic_history = Some 9.
Proof. vm_compute. repeat split; reflexivity. Qed.

(** C4: [fastestHour] is an hour of the day whose completed count is at
    least 3 and whose average [total_duration / completed] is the lowest
    among all hours with at least 3 completed tasks; it is undefined exactly
    when no hour has 3 completed tasks. *)
Theorem fastestHour_lowest_eligible_average (ss : list Session) :
  (forall h, fastestHour ss = Some h ->
     0 <= h < 24 /\ 3 <= fst (hourTotals ss h) /\
     forall h', 0 <= h' < 24 -> 3 <= fst (hourTotals ss h') ->
       (inject_Z (snd (hourTotals ss h)) / inject_Z (fst (hourTotals ss h)) <=
        inject_Z (snd (hourTotals ss h')) / inject_Z (fst (hourTotals ss h')))%Q) /\
  (fastestHour ss = None <-> forall h, 0 <= h < 24 -> fst (hourTotals ss h) < 3).
Proof.
  split.
  - intros h Hf. rewrite fastestHour_head in Hf.
    destruct (head (eligible ss)) as [r|] eqn:Hhd; [|discriminate].
    injection Hf as <-.
    assert (Hr : In r (eligible ss)).
    { destruct (eligible ss) as [|x l]; [discriminate|]. injection Hhd as ->. now left. }
    pose proof Hr as Hr'. apply In_eligible in Hr' as (h & Hh & -> & Hc).
    rewrite rowOf_hour. split; [exact Hh|]. split; [exact Hc|].
    intros h' Hh' Hc'.
    assert (Hle : byAvgAsc (rowOf ss h) (rowOf ss h') = true).
    { apply (eligible_head_least ss _ Hhd). apply In_eligible. eauto. }
    unfold byAvgAsc in Hle. apply Qle_bool_iff in Hle.
    rewrite !rowOf_avg in Hle by lia. exact Hle.
  - rewrite fastestHour_head. split.
    + intros Hn h Hh. destruct (Z.lt_ge_cases (fst (hourTotals ss h)) 3) as [Hlt|Hge];
        [exact Hlt|].
      assert (Hin : In (rowOf ss h) (eligible ss)) by (apply In_eligible; eauto).
      destruct (eligible ss); [contradiction|discriminate].
    + intros Hall. destruct (eligible ss) as [|r l] eqn:He; [reflexivity|].
      assert (Hin : In r (eligible ss)) by (rewrite He; now left).
      apply In_eligible in Hin as (h & Hh & _ & Hc). specialize (Hall h Hh). lia.
Qed.

(** C4 witness: on the synthetic history the chosen hour is 9. *)
Lemma fastestHour_lowest_eligible_average_witness :
  0 <= 9 < 24 /\ 3 <= fst (hourTotals synthetic_history 9).
Proof.
  destruct (proj1 (fastestHour_lowest_eligible_average synthetic_history) 9
    ltac:(vm_compute; reflexivity)) as (H1 & H2 & _).
  split; assumption.
Defined.

(* ------------------------------------------------------------------ *)
(** ** Proposal generator *)

Lemma string_app_assoc' (a b c : string) : (a +:+ b) +:+ c = a +:+ (b +:+ c).
Proof. induction a as [|x a IH]; [reflexivity|]. exact (f_equal (String x) IH). Qed.

Lemma showClock_hour (h : Z) : showClock (hm h 0) = pad h +:+ ":00".
Proof. reflexivity. Qed.

(** C5: when [fastestHour] is defined, exactly one [shift_high_block]
    proposal is emitted, whose target is the window [fastestHour - 1,
    fastestHour + 1] clamped to hours [0, 23] and rendered as ["HH:00"]
    boundaries, with a rationale naming ["HH:00"] of the fastest hour and
    the window; for [fastestHour = 9] the target is 08:00-10:00. When
    [fastestHour] is undefined no proposal is emitted. *)
Theorem generateScheduleProposals_window (u : UserDataSummary) :
  (forall fh, cvFastestHour u = Some fh ->
     exists p, generateScheduleProposals u = [p] /\
       ptype p = "shift_high_block" /\
       target_start p = showClock (hm (Z.max 0 (fh - 1)) 0) /\
       target_end p = showClock (hm (Z.min 23 (fh + 1)) 0) /\
       exists pre mid post,
         rationale p = pre +:+ showClock (hm fh 0) +:+ mid +:+
                       target_start p +:+ endash +:+ target_end p +:+ post) /\
  (cvFastestHour u = Some 9 ->
     map (fun p => (target_start p, target_end p)) (generateScheduleProposals u)
     = [("08:00", "10:00")]) /\
  (cvFastestHour u = None -> generateScheduleProposals u = []).
Proof.
  unfold generateScheduleProposals. split; [|split].
  - intros fh ->. eexists. split; [reflexivity|].
    cbn [ptype target_start target_end rationale].
    rewrite !showClock_hour. split; [reflexivity|]. split; [reflexivity|].
    split; [reflexivity|].
    exists "Your fastest completion window is around ",
      "; shifting High energy block to ", " may improve throughput.".
    rewrite ?showClock_hour, !string_app_assoc'. reflexivity.
  - intros ->. vm_compute. reflexivity.
  - intros ->. reflexivity.
Qed.

(** C5 witness. *)
Lemma generateScheduleProposals_window_witness :
  map (fun p => (target_start p, target_end p))
      (generateScheduleProposals (summary_with_fastest (Some 9)))
  = [("08:00", "10:00")] /\
  generateScheduleProposals (summary_with_fastest None) = [].
Proof.
  split.
  - apply (proj1 (proj2 (generateScheduleProposals_window _))). reflexivity.
  - apply (proj2 (proj2 (generateScheduleProposals_window _))). reflexivity.
Defined.

(* ------------------------------------------------------------------ *)
(** ** Insights facade fallback *)

Lemma take_nonempty {A} (n : nat) (l : list A) : (0 < n)%nat -> l <> [] -> take n l <> [].
Proof. destruct n, l; cbn; [lia|lia|congruence|discriminate]. Qed.

Lemma generateRuleBasedSuggestions_nonempty (u : UserDataSummary) :
  generateRuleBasedSuggestions u <> [] /\ (length (generateRuleBasedSuggestions u) <= 6)%nat.
Proof.
  unfold generateRuleBasedSuggestions. cbv zeta.
  match goal with |- context [take 6 (match ?l0 with [] => _ | _ => _ end)] =>
    destruct l0 as [|x l] eqn:E end.
  - split; [discriminate|]. cbn. lia.
  - split.
    + apply take_nonempty; [lia|discriminate].
    + rewrite length_take. lia.
Qed.

Lemma generateRuleBasedMotivation_nonempty (u : UserDataSummary) :
  generateRuleBasedMotivation u <> "".
Proof.
  unfold generateRuleBasedMotivation.
  destruct (cvFastestHour u); [discriminate|].
  destruct (0 <? lastWeekSessions u); discriminate.
Qed.

(** C8: for an authenticated request whose summary was computed, when
    either external narrative call fails the response is still a success:
    suggestions come from the rule-based fallback and are a non-empty list of
    at most 6 entries, the rule-based motivation is a non-empty string, and
    the proposals are those of the AI path. *)
Theorem GET_ai_failure_fallback (uid : string) (u : UserDataSummary)
    (aiSuggestions : option (list string)) (aiMotivation : option string) :
  (aiSuggestions = None \/ aiMotivation = None) ->
  GET (Some uid) (Some u) aiSuggestions aiMotivation =
    RespOk (mkInsights (generateRuleBasedSuggestions u) (generateScheduleProposals u)
                       (generateRuleBasedMotivation u)) /\
  generateRuleBasedSuggestions u <> [] /\
  (length (generateRuleBasedSuggestions u) <= 6)%nat /\
  generateRuleBasedMotivation u <> "" /\
  (forall s m, exists d, GET (Some uid) (Some u) (Some s) (Some m) = RespOk d /\
     proposals d = generateScheduleProposals u).
Proof.
  intros Hfail.
  destruct (generateRuleBasedSuggestions_nonempty u) as [Hne Hlen].
  split; [|split; [exact Hne|split; [exact Hlen|split]]].
  - unfold GET. destruct Hfail as [->| ->]; [reflexivity|].
    destruct aiSuggestions; reflexivity.
  - apply generateRuleBasedMotivation_nonempty.
  - intros s m. eexists. split; reflexivity.
Qed.

(** C8 witness: the AI suggestion call fails for a user with no history. *)
Lemma GET_ai_failure_fallback_witness :
  GET (Some "user-1") (Some (summary_with_fastest None)) None (Some "Go") =
    RespOk (mkInsights (generateRuleBasedSuggestions (summary_with_fastest None))
                       (generateScheduleProposals (summary_with_fastest None))
                       (generateRuleBasedMotivation (summary_with_fastest None))).
Proof.
  apply (GET_ai_failure_fallback "user-1" (summary_with_fastest None) None (Some "Go")).
  now left.
Defined.

(* ------------------------------------------------------------------ *)
(** ** Task capacity checks *)






(* ------------------------------------------------------------------ *)
(** ** Task PATCH route *)

(** C9 counterexample: raising task 2 of the 60-minute block of session 1
    from 10 to 50 minutes brings the session's tasks to 90 minutes; the
    route answers success and stores the change. *)
Lemma PATCH_capacity_counterexample :
  (exists r, fst (PATCH sample_db patch_task2_50) = PatchOk r /\ row_duration r = Some 50) /\
  sessionLoad (snd (PATCH sample_db patch_task2_50)) 1 = 90 /\
  (db_blocks sample_db !! 1 = Some block_9_10) /\
  getBlockDuration (startTime block_9_10) (endTime block_9_10) = Some 60.
Proof.
  split.
  - eexists. split; vm_compute; reflexivity.
  - vm_compute. repeat split.
Qed.

(** C9 (amended): the PATCH route passes the body to [updateTask], which
    writes it with no capacity check against the sibling tasks. For a
    non-zero id of an existing task (whose row meets the table's CHECK) and
    a body whose duration, if any, is positive, the response is success and
    the new fields, the new duration included, are stored whatever the
    sibling tasks' total. A duration of at most 0 breaks the CHECK: 500 and
    nothing written. A missing or zero id gives 400 and an id with no row
    500, neither with an excess figure. *)
Theorem PATCH_no_capacity_check (db : Db) (b : PatchBody) (id : Z) (r : TaskRow) :
  body_id b = Some id -> id <> 0 -> db_tasks db !! id = Some r ->
  ((forall d, row_duration r = Some d -> 0 < d) ->
   (forall d, body_duration b = Some d -> 0 < d) ->
     PATCH db b = (PatchOk (applyUpdate b r),
                   mkDb (<[id := applyUpdate b r]> (db_tasks db)) (db_blocks db)) /\
     (forall d, body_duration b = Some d -> row_duration (applyUpdate b r) = Some d)) /\
  (forall d, body_duration b = Some d -> d <= 0 ->
     PATCH db b = (PatchErr 500 "Failed to update task", db)) /\
  (forall b', body_id b' = None \/ body_id b' = Some 0 ->
     PATCH db b' = (PatchErr 400 "id is required", db)) /\
  (forall b' id', body_id b' = Some id' -> id' <> 0 -> db_tasks db !! id' = None ->
     PATCH db b' = (PatchErr 500 "Failed to update task", db)).
Proof.
  intros Hid Hnz Hr. split; [|split; [|split]].
  - intros Hrow Hbody.
    assert (Hc : durationCheck (row_duration (applyUpdate b r)) = true).
    { unfold applyUpdate. cbn [row_duration].
      destruct (body_duration b) as [d|] eqn:Hd.
      - apply Z.ltb_lt. now apply Hbody.
      - destruct (row_duration r) as [d|] eqn:Hd'; [|reflexivity].
        apply Z.ltb_lt. now apply Hrow. }
    split.
    + unfold PATCH. rewrite Hid. destruct id as [|p|p]; [congruence| |];
        unfold updateTask; rewrite Hr, Hc; reflexivity.
    + intros d Hd. unfold applyUpdate. cbn. now rewrite Hd.
  - intros d Hd Hle.
    assert (Hc : durationCheck (row_duration (applyUpdate b r)) = false).
    { unfold applyUpdate. cbn [row_duration]. rewrite Hd. apply Z.ltb_ge. exact Hle. }
    unfold PATCH. rewrite Hid. destruct id as [|p|p]; [congruence| |];
      unfold updateTask; rewrite Hr, Hc; reflexivity.
  - intros b' [Hb'|Hb']; unfold PATCH; now rewrite Hb'.
  - intros b' id' Hid' Hnz' Hnone. unfold PATCH. rewrite Hid'.
    destruct id' as [|p|p]; [congruence| |]; unfold updateTask; rewrite Hnone; reflexivity.
Qed.

(** C9 witness. *)
Lemma PATCH_no_capacity_check_witness :
  fst (PATCH sample_db patch_task2_50) = PatchOk (mkTaskRow 1 "Read" "" (Some 50) Active).
Proof.
  rewrite (proj1 (proj1 (PATCH_no_capacity_check sample_db patch_task2_50 2
    (mkTaskRow 1 "Read" "" (Some 10) Active) eq_refl ltac:(lia) ltac:(vm_compute; reflexivity))
    ltac:(intros d Hd; cbn in Hd; injection Hd as <-; lia)
    ltac:(intros d Hd; cbn in Hd; injection Hd as <-; lia))).
  reflexivity.
Defined.

(* ------------------------------------------------------------------ *)
(** ** Reading time strings back *)

Lemma digitVal_char (d : N) : (d < 10)%N -> digitVal (pretty_N_char d) = Some (Z.of_N d).
Proof.
  intros Hd.
  assert (d = 0 \/ d = 1 \/ d = 2 \/ d = 3 \/ d = 4 \/ d = 5 \/ d = 6 \/ d = 7 \/ d = 8 \/ d = 9)%N
    as Hc by lia.
  repeat destruct Hc as [->|Hc]; try reflexivity. subst. reflexivity.
Qed.

Lemma digitsVal_pretty_N_go (x : N) : forall acc s,
  exists m, digitsVal acc (pretty_N_go x s) = digitsVal (acc * m + Z.of_N x) s.
Proof.
  induction x as [x IH] using (well_founded_induction N.lt_wf_0).
  intros acc s. destruct (decide (x = 0%N)) as [->|Hx].
  - exists 1. rewrite pretty_N_go_0. f_equal. lia.
  - rewrite pretty_N_go_step by lia.
    destruct (IH (x `div` 10)%N ltac:(apply N.div_lt; lia) acc
      (String (pretty_N_char (x `mod` 10)) s)) as [m Hm].
    rewrite Hm. cbn. rewrite digitVal_char by (apply N.mod_lt; lia).
    exists (m * 10). f_equal.
    pose proof (N.div_mod x 10 ltac:(lia)). lia.
Qed.

Lemma Number_pretty (n : Z) : 0 <= n -> Number (pretty n) = Some n.
Proof.
  intros Hn. destruct n as [|p|p]; [reflexivity| |lia].
  unfold Number. change (pretty (Z.pos p)) with (pretty (N.pos p)).
  unfold pretty, pretty_N.
  destruct (decide (N.pos p = 0%N)); [discriminate|].
  destruct (digitsVal_pretty_N_go (N.pos p) 0 "") as [m Hm]. rewrite Hm. cbn. f_equal.
Qed.

Lemma Number_padStart2 (s : string) : Number (padStart2 s) = Number s.
Proof. destruct s as [|c [|c' s]]; reflexivity. Qed.

Lemma Number_pad (n : Z) : 0 <= n -> Number (pad n) = Some n.
Proof. intros. unfold pad. rewrite Number_padStart2. now apply Number_pretty. Qed.

Lemma digitsVal_str_split (acc : Z) (a b : string) (v : Z) :
  digitsVal acc a = Some v -> str_split ":" (a +:+ String ":" b) = a :: str_split ":" b.
Proof.
  revert acc. induction a as [|c a IH]; intros acc Ha; [reflexivity|].
  cbn in Ha. destruct (digitVal c) as [d|] eqn:Hd; [|discriminate].
  change (String c a +:+ String ":" b) with (String c (a +:+ String ":" b)).
  cbn [str_split]. rewrite (IH _ Ha).
  destruct (ascii_dec c ":") as [->|]; [discriminate|reflexivity].
Qed.

Lemma digitsVal_str_split_end (acc : Z) (a : string) (v : Z) :
  digitsVal acc a = Some v -> str_split ":" a = [a].
Proof.
  revert acc. induction a as [|c a IH]; intros acc Ha; [reflexivity|].
  cbn in Ha. destruct (digitVal c) as [d|] eqn:Hd; [|discriminate].
  cbn [str_split]. rewrite (IH _ Ha).
  destruct (ascii_dec c ":") as [->|]; [discriminate|reflexivity].
Qed.

Lemma parseClock_pads (a b : Z) :
  0 <= a -> 0 <= b -> parseClock (pad a +:+ ":" +:+ pad b) = Some (mkClock a b).
Proof.
  intros Ha Hb. unfold parseClock.
  pose proof (Number_pad a Ha) as Na. pose proof (Number_pad b Hb) as Nb.
  change (":" +:+ pad b) with (String ":" (pad b)).
  rewrite (digitsVal_str_split 0 (pad a) (pad b) a Na).
  rewrite (digitsVal_str_split_end 0 (pad b) b Nb).
  rewrite Na, Nb. reflexivity.
Qed.

(** X1: [t.split(':').map(Number)] reads back what the page renders: the
    ["HH:MM"] text [showClock] of a clock with non-negative fields parses to
    the same clock, and for a non-negative minute count [x] the rendered
    [fromMin x] reads back as [x] through [toMin]. *)
Theorem showClock_parseClock_roundtrip (c : Clock) (x : Z) :
  0 <= hh c -> 0 <= mm c -> 0 <= x ->
  parseClock (showClock c) = Some c /\
  toMinS (showClock (fromMin x)) = Some x.
Proof.
  intros Hh Hm Hx. split.
  - destruct c as [h m]. unfold showClock. cbn [hh mm] in *. now apply parseClock_pads.
  - unfold toMinS, showClock, fromMin. cbn [hh mm].
    rewrite parseClock_pads.
    + cbn [option_map]. f_equal. change (toMin (fromMin x) = x). now apply toMin_fromMin.
    + apply Z.div_pos; lia.
    + apply Z.rem_nonneg; lia.
Qed.

(** X1 witness: 09:05 and minute 545. *)
Lemma showClock_parseClock_roundtrip_witness :
  parseClock (showClock (hm 9 5)) = Some (hm 9 5) /\ toMinS (showClock (fromMin 545)) = Some 545.
Proof. apply (showClock_parseClock_roundtrip (hm 9 5) 545); cbn; lia. Defined.

(** X2: the insights route's [fromMin] wraps a minute count into the day:
    for [m >= -1440] its ["HH:MM"] text reads back as the clock
    [(m mod 1440) / 60 : m mod 60], a valid clock, and [toMin] of it is
    [m mod 1440]. *)
Theorem fromMinWrap_reads_mod_day (m : Z) :
  -1440 <= m ->
  parseClock (fromMinWrap m) = Some (mkClock (m mod 1440 / 60) (m mod 60)) /\
  valid_clock (mkClock (m mod 1440 / 60) (m mod 60)) /\
  toMinS (fromMinWrap m) = Some (m mod 1440).
Proof.
  intros Hm.
  assert (E1 : Z.rem (m + 1440) 1440 = m mod 1440).
  { rewrite Z.rem_mod_nonneg by lia. rewrite Zplus_mod, Z_mod_same_full, Z.add_0_r.
    apply Z.mod_mod. lia. }
  assert (E2 : Z.rem (m + 1440) 60 = m mod 60).
  { rewrite Z.rem_mod_nonneg by lia.
    replace (m + 1440) with (m + 24 * 60) by lia. apply Z_mod_plus_full. }
  assert (R1 : 0 <= m mod 1440 < 1440) by (apply Z.mod_pos_bound; lia).
  assert (R2 : 0 <= m mod 60 < 60) by (apply Z.mod_pos_bound; lia).
  assert (P : parseClock (fromMinWrap m) = Some (mkClock (m mod 1440 / 60) (m mod 60))).
  { unfold fromMinWrap. rewrite E1, E2. apply parseClock_pads; [apply Z.div_pos|]; lia. }
  split; [exact P|]. split.
  - unfold valid_clock; cbn. split; [|lia].
    split; [apply Z.div_pos; lia|].
    assert (m mod 1440 / 60 < 24) by (apply Z.div_lt_upper_bound; lia). lia.
  - unfold toMinS. rewrite P. cbn. unfold toMin; cbn. f_equal.
    pose proof (Z.div_mod (m mod 1440) 60 ltac:(lia)).
    assert (m mod 1440 mod 60 = m mod 60).
    { apply Z.mod_mod_divide. exists 24. lia. }
    lia.
Qed.

(** X2 witness: thirty minutes before midnight reads back as 23:30. *)
Lemma fromMinWrap_reads_mod_day_witness :
  parseClock (fromMinWrap (-30)) = Some (mkClock 23 30) /\ toMinS (fromMinWrap (-30)) = Some 1410.
Proof.
  destruct (fromMinWrap_reads_mod_day (-30) ltac:(lia)) as (H1 & _ & H2).
  split; [exact H1|exact H2].
Defined.

(* ------------------------------------------------------------------ *)
(** ** Applying a proposal (insights [POST]) *)

Lemma toMinS_hour (h : Z) : 0 <= h -> toMinS (pad h +:+ ":00") = Some (h * 60).
Proof.
  intros Hh. unfold toMinS.
  change (pad h +:+ ":00") with (pad h +:+ ":" +:+ pad 0).
  rewrite parseClock_pads by lia. cbn. f_equal. unfold toMin. cbn. lia.
Qed.

Lemma fromMinWrap_hour (h : Z) : 0 <= h <= 23 -> fromMinWrap (h * 60) = pad h +:+ ":00".
Proof.
  intros Hh. unfold fromMinWrap.
  replace (Z.rem (h * 60 + 1440) 1440) with (h * 60).
  2:{ rewrite Z.rem_mod_nonneg by lia.
      replace (h * 60 + 1440) with (h * 60 + 1 * 1440) by lia.
      rewrite Z_mod_plus_full. rewrite Z.mod_small by lia. reflexivity. }
  replace (Z.rem (h * 60 + 1440) 60) with 0.
  2:{ rewrite Z.rem_mod_nonneg by lia.
      replace (h * 60 + 1440) with ((h + 24) * 60) by lia.
      rewrite Z_mod_mult. reflexivity. }
  rewrite Z.div_mul by lia. reflexivity.
Qed.

Lemma truthy_hour (h : Z) : truthy (Some (pad h +:+ ":00")) = true.
Proof. unfold truthy. destruct (pad h); reflexivity. Qed.

(** X4: applying the proposal [generateScheduleProposals] makes for a
    fastest hour in 0..23 succeeds, and its first write sets exactly the
    proposal's [target_start]-[target_end] window, on the first High
    template (when it has an id) or on a new High template. *)
Theorem POST_applies_generated_proposal (uid : string) (u : UserDataSummary) (fh : Z)
    (rows : list Template) :
  cvFastestHour u = Some fh -> 0 <= fh <= 23 ->
  exists p, generateScheduleProposals u = [p] /\ exists w rest,
    POST (Some uid) (payloadOf p) rows = (ApplyOk, w :: rest) /\
    writeWindow w = (target_start p, target_end p) /\
    (forall r, findTemplate High rows = Some r -> tpl_id r <> 0 ->
       w = UpdateTemplate (tpl_id r) (target_start p) (target_end p)).
Proof.
  intros Hf Hr. unfold generateScheduleProposals. rewrite Hf. cbv zeta.
  set (a := Z.max 0 (fh - 1)). set (b := Z.min 23 (fh + 1)).
  assert (Ha : 0 <= a <= 23) by lia. assert (Hb : 0 <= b <= 23) by lia.
  assert (Hab : a < b) by lia.
  eexists. split; [reflexivity|].
  unfold POST, payloadOf. cbn [pl_type pl_start pl_end target_start target_end ptype from_option id].
  rewrite !truthy_hour. cbn [String.eqb negb orb].
  change (String.eqb "shift_high_block" "shift_high_block") with true. cbn [negb orb].
  rewrite !toMinS_hour by lia.
  replace (b * 60 <=? a * 60) with false by (symmetry; apply Z.leb_gt; lia).
  rewrite !fromMinWrap_hour by lia.
  destruct (findTemplate High rows) as [r|] eqn:Hr0.
  - destruct (tpl_id r =? 0) eqn:Hid.
    + eexists _, _. split; [reflexivity|]. split; [reflexivity|].
      intros r' Hr' Hne. apply Z.eqb_eq in Hid. congruence.
    + eexists _, _. split; [reflexivity|]. split; [reflexivity|].
      intros r' Hr' _. congruence.
  - eexists _, _. split; [reflexivity|]. split; [reflexivity|].
    intros r' Hr' _. discriminate.
Qed.

(** X4 witness: the proposal for a fastest hour of 9 applied to the example
    templates updates template 1 to 08:00-10:00. *)
Lemma POST_applies_generated_proposal_witness :
  exists rest, POST (Some "u") (payloadOf (hd (mkProposal "" "" "" "")
      (generateScheduleProposals (summary_with_fastest (Some 9))))) example_templates
    = (ApplyOk, UpdateTemplate 1 "08:00" "10:00" :: rest).
Proof.
  destruct (POST_applies_generated_proposal "u" (summary_with_fastest (Some 9)) 9
    example_templates eq_refl ltac:(lia)) as (p & Hp & w & rest & Hpost & _ & Hw).
  rewrite Hp. cbn [hd]. exists rest. rewrite Hpost.
  rewrite (Hw (mkTemplate 1 High (hm 6 0) (hm 12 0)) eq_refl ltac:(cbn; lia)).
  injection Hp as <-. reflexivity.
Defined.

(** X5: when the stored Medium end is at or before the stored Low start,
    the apply-proposal [POST] writes Medium from [max(mS, hE)] (with the
    +60 fix on its end) but rewrites Low with its stored window unchanged:
    Low is clamped against the stored Medium end, not the new one, whatever
    the High window. *)
Theorem POST_low_uses_stored_medium_end (uid ts te : string) (rows : list Template)
    (hS hE0 : Z) (m l : Template) :
  ts <> "" -> te <> "" -> toMinS ts = Some hS -> toMinS te = Some hE0 ->
  findTemplate Medium rows = Some m -> findTemplate Low rows = Some l ->
  toMin (tpl_end m) <= toMin (tpl_start l) < toMin (tpl_end l) ->
  let hE := if hE0 <=? hS then hS + 60 else hE0 in
  let mS := Z.max (toMin (tpl_start m)) hE in
  exists w, snd (POST (Some uid) (mkPayload (Some "shift_high_block") (Some ts) (Some te)) rows) =
    [w; UpdateTemplate (tpl_id m) (fromMinWrap mS)
          (fromMinWrap (if toMin (tpl_end m) <=? mS then mS + 60 else toMin (tpl_end m)));
        UpdateTemplate (tpl_id l) (fromMinWrap (toMin (tpl_start l)))
          (fromMinWrap (toMin (tpl_end l)))].
Proof.
  intros Hts Hte Hs He Hm Hl Hlow hE mS. unfold POST. cbn [pl_type pl_start pl_end from_option id].
  unfold truthy. apply String.eqb_neq in Hts, Hte. rewrite Hts, Hte.
  change (String.eqb "shift_high_block" "shift_high_block") with true. cbn [negb orb].
  rewrite Hs, He, Hm, Hl. fold hE.
  replace (if toMin (tpl_start m) <? hE then hE else toMin (tpl_start m)) with mS
    by (unfold mS; destruct (Z.ltb_spec (toMin (tpl_start m)) hE); lia).
  replace (if toMin (tpl_start l) <? toMin (tpl_end m) then toMin (tpl_end m) else toMin (tpl_start l))
    with (toMin (tpl_start l)) by (destruct (Z.ltb_spec (toMin (tpl_start l)) (toMin (tpl_end m))); lia).
  replace (toMin (tpl_end l) <=? toMin (tpl_start l)) with false by (symmetry; apply Z.leb_gt; lia).
  eexists. reflexivity.
Qed.

(** X5 witness: shifting High to 17:00-19:00 on the example templates
    writes Medium 19:00-20:00 and leaves Low at 18:00-22:00, overlapping it. *)
Lemma POST_low_uses_stored_medium_end_witness :
  exists w, snd (POST (Some "u") (mkPayload (Some "shift_high_block") (Some "17:00") (Some "19:00"))
                  example_templates) =
    [w; UpdateTemplate 2 "19:00" "20:00"; UpdateTemplate 3 "18:00" "22:00"].
Proof.
  destruct (POST_low_uses_stored_medium_end "u" "17:00" "19:00" example_templates 1020 1140
    (mkTemplate 2 Medium (hm 12 0) (hm 18 0)) (mkTemplate 3 Low (hm 18 0) (hm 22 0))
    ltac:(discriminate) ltac:(discriminate) ltac:(vm_compute; reflexivity)
    ltac:(vm_compute; reflexivity) eq_refl eq_refl ltac:(unfold toMin; cbn; lia)) as [w Hw].
  exists w. rewrite Hw. vm_compute. reflexivity.
Defined.

(* ------------------------------------------------------------------ *)
(** ** Schedule builder: time edit and save *)

Lemma saveTimeEdit_unfold (times : Times) (energy : Energy) (s e : Clock) :
  toMin s < toMin e ->
  saveTimeEdit times energy s e = TimeEditSaved (adjustAdjacentForChange times energy s e).
Proof.
  intros H. unfold saveTimeEdit. rewrite (proj2 (Z.ltb_lt _ _) H). cbn [negb].
  f_equal. destruct times, energy; reflexivity.
Qed.

(** X6: the time edit modal refuses an end at or before the start with
    its message; otherwise the saved schedule holds the edited block exactly
    as entered, whatever the base schedule. When the base schedule is valid
    (each block two valid clock fields, ending after it starts), each of the
    three saved blocks starts at a non-negative minute and ends after it
    starts. *)
Theorem saveTimeEdit_keeps_edit (times : Times) (energy : Energy) (s e : Clock) :
  valid_clock s -> valid_clock e ->
  (toMin e <= toMin s ->
     saveTimeEdit times energy s e = TimeEditError "End time must be after start time.") /\
  (toMin s < toMin e -> exists t', saveTimeEdit times energy s e = TimeEditSaved t' /\
     blockOf t' energy = mkBlock s e /\
     (valid_times times ->
        forall k, 0 <= toMin (startTime (blockOf t' k)) < toMin (endTime (blockOf t' k)))).
Proof.
  intros Hs He. split.
  - intros Hle. unfold saveTimeEdit. rewrite (proj2 (Z.ltb_ge _ _)) by lia. reflexivity.
  - intros Hlt. rewrite saveTimeEdit_unfold by exact Hlt.
    eexists. split; [reflexivity|].
    pose proof (fromMin_toMin s Hs) as Es. pose proof (fromMin_toMin e He) as Ee.
    pose proof (valid_clock_nonneg s Hs) as Hs0.
    split.
    + destruct times as [H M L].
      destruct energy; unfold adjustAdjacentForChange, setBlock, Energy_eqb;
        cbn [blockOf high medium low startTime endTime]; case_ifs;
        cbn [high medium low startTime endTime];
        rewrite ?Es, ?Ee; try reflexivity; lia.
    + intros Hv. destruct times as [H M L]. destruct_valid. cbn [high medium low] in *.
      destruct energy; unfold adjustAdjacentForChange, setBlock, Energy_eqb;
        cbn [high medium low startTime endTime]; case_ifs;
        cbn [high medium low startTime endTime];
        intros []; cbn [blockOf high medium low startTime endTime]; fromMin_simpl; lia.
Qed.

(** X6 witness: Medium edited to 11:00-17:00 is stored as entered, also on
    a base whose High block 23:30-00:30 ends before it starts; an end before
    the start is refused. *)
Lemma saveTimeEdit_keeps_edit_witness :
  (exists t', saveTimeEdit example_times Medium (hm 11 0) (hm 17 0) = TimeEditSaved t' /\
              blockOf t' Medium = mkBlock (hm 11 0) (hm 17 0)) /\
  (exists t', saveTimeEdit (setBlock example_times High (mkBlock (hm 23 30) (hm 0 30)))
                Medium (hm 11 0) (hm 17 0) = TimeEditSaved t' /\
              blockOf t' Medium = mkBlock (hm 11 0) (hm 17 0)) /\
  saveTimeEdit example_times Low (hm 20 0) (hm 19 0)
    = TimeEditError "End time must be after start time.".
Proof.
  split; [|split].
  - destruct (proj2 (saveTimeEdit_keeps_edit example_times Medium (hm 11 0) (hm 17 0)
      ltac:(unfold valid_clock; cbn; lia) ltac:(unfold valid_clock; cbn; lia))
      ltac:(unfold toMin; cbn; lia)) as (t' & H1 & H2 & _).
    exists t'. split; assumption.
  - destruct (proj2 (saveTimeEdit_keeps_edit
      (setBlock example_times High (mkBlock (hm 23 30) (hm 0 30))) Medium (hm 11 0) (hm 17 0)
      ltac:(unfold valid_clock; cbn; lia) ltac:(unfold valid_clock; cbn; lia))
      ltac:(unfold toMin; cbn; lia)) as (t' & H1 & H2 & _).
    exists t'. split; assumption.
  - apply (proj1 (saveTimeEdit_keeps_edit example_times Low (hm 20 0) (hm 19 0)
      ltac:(unfold valid_clock; cbn; lia) ltac:(unfold valid_clock; cbn; lia))).
    unfold toMin; cbn; lia.
Defined.

(** X7: on a valid schedule, editing High to a valid window keeps High as
    entered and leaves the three blocks in chronological order and pairwise
    non-overlapping: [hasOverlapSimple] is [false]. *)
Theorem adjustAdjacentForChange_high_edit_resolves (base : Times) (s e : Clock) :
  valid_times base -> valid_clock s -> valid_clock e -> toMin s < toMin e ->
  high (adjustAdjacentForChange base High s e) = mkBlock s e /\
  ordered (adjustAdjacentForChange base High s e) /\
  pairwise_disjoint (adjustAdjacentForChange base High s e) /\
  hasOverlapSimple (adjustAdjacentForChange base High s e) = false.
Proof.
  intros Hv Hs He Hse.
  pose proof (fromMin_toMin e He) as Ee.
  assert (Hd : high (adjustAdjacentForChange base High s e) = mkBlock s e /\
               ordered (adjustAdjacentForChange base High s e) /\
               pairwise_disjoint (adjustAdjacentForChange base High s e)).
  { destruct base as [H M L]. destruct_valid. cbn [high medium low] in *.
    unfold adjustAdjacentForChange, setBlock, Energy_eqb, ordered, pairwise_disjoint;
      unfold disjoint; cbn [high medium low startTime endTime]; case_ifs;
      cbn [high medium low startTime endTime]; fromMin_simpl;
      (split; [rewrite Ee; reflexivity|]); lia. }
  destruct Hd as (H1 & H2 & H3). split; [exact H1|split; [exact H2|split; [exact H3|]]].
  now apply hasOverlapSimple_false.
Qed.

(** X7 witness: High moved to 20:00-21:00 on the example schedule. *)
Lemma adjustAdjacentForChange_high_edit_resolves_witness :
  hasOverlapSimple (adjustAdjacentForChange example_times High (hm 20 0) (hm 21 0)) = false.
Proof.
  apply (adjustAdjacentForChange_high_edit_resolves example_times (hm 20 0) (hm 21 0)
    example_times_valid ltac:(unfold valid_clock; cbn; lia) ltac:(unfold valid_clock; cbn; lia)
    ltac:(unfold toMin; cbn; lia)).
Defined.

(** X8: on a valid schedule in chronological order, after editing Medium
    the result overlaps exactly when the new Medium starts at or before
    High's start and ends after it (High's trim is floored at its start + 1);
    Low starts at [max(lS, e)] and ends at [max(lE, start + 1)]. *)
Theorem adjustAdjacentForChange_medium_edit_overlap (base : Times) (s e : Clock) :
  valid_times base -> ordered base -> valid_clock s -> valid_clock e -> toMin s < toMin e ->
  let hS := toMin (startTime (high base)) in
  let lS' := Z.max (toMin (startTime (low base))) (toMin e) in
  hasOverlapSimple (adjustAdjacentForChange base Medium s e)
    = (toMin s <=? hS) && (hS <? toMin e) /\
  toMin (startTime (low (adjustAdjacentForChange base Medium s e))) = lS' /\
  toMin (endTime (low (adjustAdjacentForChange base Medium s e)))
    = Z.max (toMin (endTime (low base))) (lS' + 1).
Proof.
  intros Hv Ho Hs He Hse hS lS'. subst hS lS'.
  destruct base as [H M L]. destruct_valid. cbn [high medium low] in *.
  unfold adjustAdjacentForChange, setBlock, Energy_eqb, hasOverlapSimple, overlap;
    cbn [high medium low startTime endTime]; case_ifs;
    cbn [high medium low startTime endTime]; fromMin_simpl;
    (split; [|split; lia]);
    repeat match goal with
    | |- context [?a <? ?b] => destruct (Z.ltb_spec a b)
    | |- context [?a <=? ?b] => destruct (Z.leb_spec a b)
    end; cbn [andb orb]; reflexivity || lia.
Qed.

(** X8 witness: Medium edited to 05:00-13:00 covers High's start; the edit
    leaves an overlap. *)
Lemma adjustAdjacentForChange_medium_edit_overlap_witness :
  hasOverlapSimple (adjustAdjacentForChange example_times Medium (hm 5 0) (hm 13 0)) = true.
Proof.
  rewrite (proj1 (adjustAdjacentForChange_medium_edit_overlap example_times (hm 5 0) (hm 13 0)
    example_times_valid ltac:(unfold ordered, toMin; cbn; lia)
    ltac:(unfold valid_clock; cbn; lia) ltac:(unfold valid_clock; cbn; lia)
    ltac:(unfold toMin; cbn; lia))).
  reflexivity.
Defined.

(** X9: on a valid schedule in chronological order, editing Low keeps
    High unchanged and Low as entered; the result overlaps exactly when the
    new Low meets High, or starts at or before Medium's start and ends after
    it (Medium's trim is floored at its start + 1). *)
Theorem adjustAdjacentForChange_low_edit_overlap (base : Times) (s e : Clock) :
  valid_times base -> ordered base -> valid_clock s -> valid_clock e -> toMin s < toMin e ->
  let hS := toMin (startTime (high base)) in let hE := toMin (endTime (high base)) in
  let mS := toMin (startTime (medium base)) in
  high (adjustAdjacentForChange base Low s e) = high base /\
  low (adjustAdjacentForChange base Low s e) = mkBlock s e /\
  hasOverlapSimple (adjustAdjacentForChange base Low s e)
    = (hS <? toMin e) && (toMin s <? hE) || (toMin s <=? mS) && (mS <? toMin e).
Proof.
  intros Hv Ho Hs He Hse hS hE mS. subst hS hE mS.
  pose proof (fromMin_toMin s Hs) as Es. pose proof (fromMin_toMin e He) as Ee.
  pose proof (fromMin_toMin (endTime (high base)) (proj1 (proj2 (proj1 Hv)))) as EH.
  destruct base as [[Hs0 He0] M L]. destruct_valid. cbn [high medium low startTime endTime] in *.
  unfold adjustAdjacentForChange, setBlock, Energy_eqb, hasOverlapSimple, overlap;
    cbn [high medium low startTime endTime]; case_ifs;
    cbn [high medium low startTime endTime]; fromMin_simpl;
    try (exfalso; lia); try rewrite EH; try rewrite Es; try rewrite Ee;
    (split; [reflexivity|split; [reflexivity|]]);
    repeat match goal with
    | |- context [?a <? ?b] => destruct (Z.ltb_spec a b)
    | |- context [?a <=? ?b] => destruct (Z.leb_spec a b)
    end; cbn [andb orb]; reflexivity || lia.
Qed.

(** X9 witness: Low edited to 11:00-20:00 reaches into High; the edit
    leaves an overlap. *)
Lemma adjustAdjacentForChange_low_edit_overlap_witness :
  hasOverlapSimple (adjustAdjacentForChange example_times Low (hm 11 0) (hm 20 0)) = true.
Proof.
  rewrite (proj2 (proj2 (adjustAdjacentForChange_low_edit_overlap example_times (hm 11 0) (hm 20 0)
    example_times_valid ltac:(unfold ordered, toMin; cbn; lia)
    ltac:(unfold valid_clock; cbn; lia) ltac:(unfold valid_clock; cbn; lia)
    ltac:(unfold toMin; cbn; lia)))).
  reflexivity.
Defined.

Lemma autoAdjustContinuous_disjoint (t : Times) :
  valid_times t -> pairwise_disjoint (autoAdjustContinuous t).
Proof.
  intros Hv. destruct t as [H M L]. destruct_valid.
  unfold autoAdjustContinuous, pairwise_disjoint; unfold disjoint, dur.
  cbn [high medium low startTime endTime] in *.
  case_ifs; lia.
Qed.

Lemma valid_times_of_validateTimes (t : Times) :
  (forall k, valid_clock (startTime (blockOf t k)) /\ valid_clock (endTime (blockOf t k))) ->
  validateTimes t = true -> valid_times t.
Proof.
  intros Hc Hv. unfold validateTimes in Hv.
  apply andb_prop in Hv as [Hv Hl]. apply andb_prop in Hv as [Hh Hm].
  apply Z.ltb_lt in Hh, Hm, Hl.
  pose proof (Hc High) as Ch; pose proof (Hc Medium) as Cm; pose proof (Hc Low) as Cl.
  cbn [blockOf] in Ch, Cm, Cl. unfold valid_times, valid_block. tauto.
Qed.

(** X10: with every field a valid clock, [handleSaveTimes] rejects exactly
    when a block does not end after it starts, or the blocks overlap and the
    user declines the adjustment; whatever it saves is pairwise
    non-overlapping. *)
Theorem handleSaveTimes_outcome (confirm : bool) (t : Times) :
  (forall k, valid_clock (startTime (blockOf t k)) /\ valid_clock (endTime (blockOf t k))) ->
  (handleSaveTimes confirm t = Rejected <->
     validateTimes t = false \/ (hasOverlapSimple t = true /\ confirm = false)) /\
  (forall t', handleSaveTimes confirm t = Saved t' -> pairwise_disjoint t').
Proof.
  intros Hc. unfold handleSaveTimes.
  destruct (validateTimes t) eqn:Hv; cbn [negb].
  - pose proof (valid_times_of_validateTimes t Hc Hv) as Hvt.
    destruct (hasOverlapSimple t) eqn:Ho.
    + destruct confirm.
      * split; [split; [discriminate|intros [H|[_ H]]; discriminate]|].
        intros t' Ht'. injection Ht' as <-. now apply autoAdjustContinuous_disjoint.
      * split; [split; [intros _; right; split; reflexivity|reflexivity]|discriminate].
    + split; [split; [discriminate|intros [H|[H _]]; discriminate]|].
      intros t' Ht'. injection Ht' as <-. now apply disjoint_of_hasOverlapSimple.
  - split; [split; [intros _; left; reflexivity|reflexivity]|discriminate].
Qed.

(** X10 witness: overlapping blocks saved without confirming are rejected. *)
Lemma handleSaveTimes_outcome_witness : handleSaveTimes false overlapping_times = Rejected.
Proof.
  apply (proj1 (handleSaveTimes_outcome false overlapping_times
    ltac:(intros []; unfold valid_clock; cbn; lia))).
  right. split; reflexivity.
Defined.

(* ------------------------------------------------------------------ *)
(** ** Schedule builder: task duration checks *)

Lemma fold_other_ext (taskId acc : Z) (l1 l2 : list (Z * option Z)) :
  Forall2 (fun x y => fst x = fst y /\ (fst x <> taskId -> snd x = snd y)) l1 l2 ->
  fold_left (fun acc '(tid, d) => acc + (if tid =? taskId then 0 else from_option id 0 d)) l1 acc =
  fold_left (fun acc '(tid, d) => acc + (if tid =? taskId then 0 else from_option id 0 d)) l2 acc.
Proof.
  intros HF. revert acc. induction HF as [|[t1 d1] [t2 d2] l1 l2 [Ht Hd] HF IH]; intros acc;
    [reflexivity|].
  cbn [fst snd] in *. subst t2. cbn [fold_left]. rewrite <- IH.
  destruct (Z.eqb_spec t1 taskId); [reflexivity|]. now rewrite Hd.
Qed.

Lemma find_sameOther (taskId : Z) (energy : Energy) (bs1 bs2 : list DayBlock) :
  Forall2 (sameOtherDurations taskId) bs1 bs2 ->
  (List.find (fun b => Energy_eqb (block_energy b) energy) bs1 = None /\
   List.find (fun b => Energy_eqb (block_energy b) energy) bs2 = None) \/
  exists b1 b2, sameOtherDurations taskId b1 b2 /\
    List.find (fun b => Energy_eqb (block_energy b) energy) bs1 = Some b1 /\
    List.find (fun b => Energy_eqb (block_energy b) energy) bs2 = Some b2.
Proof.
  induction 1 as [|b1 b2 l1 l2 Hb HF IH]; [left; split; reflexivity|].
  cbn [List.find]. pose proof Hb as [He _]. rewrite He.
  destruct (Energy_eqb (block_energy b2) energy).
  - right. exists b1, b2. split; [exact Hb|split; reflexivity].
  - exact IH.
Qed.

(** X11: [validateDbEditDuration] lets the edit through before the day's
    blocks are loaded or when no block has the energy; its verdict is
    antitone in the proposed minutes, treats a proposal of at most 0 as 0,
    and does not depend on the stored duration of the edited task. *)
Theorem validateDbEditDuration_checks (dayBlocks : option (list DayBlock)) (times : Times)
    (energy : Energy) (taskId p p' : Z) :
  (dayBlocks = None -> validateDbEditDuration dayBlocks times energy taskId p = true) /\
  (forall bs, dayBlocks = Some bs ->
     Forall (fun b => block_energy b <> energy) bs ->
     validateDbEditDuration dayBlocks times energy taskId p = true) /\
  (p <= p' -> validateDbEditDuration dayBlocks times energy taskId p' = true ->
     validateDbEditDuration dayBlocks times energy taskId p = true) /\
  (p <= 0 -> validateDbEditDuration dayBlocks times energy taskId p
             = validateDbEditDuration dayBlocks times energy taskId 0) /\
  (forall bs1 bs2, Forall2 (sameOtherDurations taskId) bs1 bs2 ->
     validateDbEditDuration (Some bs1) times energy taskId p
     = validateDbEditDuration (Some bs2) times energy taskId p).
Proof.
  unfold validateDbEditDuration. split; [|split; [|split; [|split]]].
  - intros ->. reflexivity.
  - intros bs -> HF. replace (List.find _ bs) with (@None DayBlock); [reflexivity|].
    induction HF as [|b bs Hb HF IH]; [reflexivity|]. cbn [List.find].
    destruct (block_energy b), energy; cbn [Energy_eqb]; try congruence; exact IH.
  - intros Hp. destruct dayBlocks as [bs|]; [|reflexivity].
    destruct (List.find _ bs) as [b|]; [|reflexivity].
    set (o := fold_left _ _ 0).
    destruct (getBlockDuration _ _) as [bd|]; [|reflexivity]. cbn [gtNum].
    intros H. apply negb_true_iff, Z.ltb_ge in H. apply negb_true_iff, Z.ltb_ge. lia.
  - intros Hp. destruct dayBlocks as [bs|]; [|reflexivity].
    destruct (List.find _ bs) as [b|]; [|reflexivity].
    rewrite (Z.max_l 0 p) by lia. reflexivity.
  - intros bs1 bs2 HF.
    destruct (find_sameOther taskId energy bs1 bs2 HF) as [[-> ->]|(b1 & b2 & [_ Ht] & -> & ->)];
      [reflexivity|].
    rewrite (fold_other_ext taskId 0 _ _ Ht). reflexivity.
Qed.

Lemma sumDur_snoc (ts : list BuilderTask) (t : BuilderTask) :
  sumDur (ts ++ [t]) = sumDur ts + duration t.
Proof. unfold sumDur. rewrite fold_left_app. reflexivity. Qed.

(** X12: when both block times are valid Date times, so that the block
    duration is a number [bd], and the block's tasks fit in it, a quick add
    that succeeds appends one task of the entered non-zero duration with a
    non-empty name, raises the total by that duration and keeps
    [validateTasks] at [TasksOk]; when the tasks fill the block, no task of
    positive duration is added. When a block time is an Invalid Date (such
    as an hour past 24:00), the duration is NaN and every quick add with a
    name and a non-zero duration succeeds. *)
Theorem quickAdd_fits (times : TimeBlock) (block : Energy) (ts : list BuilderTask)
    (nm : string) (d : option Z) :
  (forall bd, getBlockDuration (startTime times) (endTime times) = Some bd ->
     (sumDur ts <= bd ->
      forall ts', quickAdd times ts nm d = QuickAdded ts' ->
        exists n, d = Some n /\ nm <> "" /\ n <> 0 /\
          ts' = ts ++ [mkBuilderTask nm n] /\ sumDur ts' = sumDur ts + n /\
          validateTasks times block ts' = TasksOk) /\
     (bd <= sumDur ts -> forall n ts', 0 < n -> quickAdd times ts nm (Some n) <> QuickAdded ts')) /\
  (getBlockDuration (startTime times) (endTime times) = None ->
     forall n, nm <> "" -> n <> 0 ->
       quickAdd times ts nm (Some n) = QuickAdded (ts ++ [mkBuilderTask nm n])).
Proof.
  split.
  - intros bd Hbd. split.
    + intros Hfit ts' Hq. unfold quickAdd in Hq.
      destruct d as [n|]; [|discriminate].
      destruct (String.eqb_spec nm "") as [Hnm|Hnm]; [discriminate|].
      destruct (Z.eqb_spec n 0) as [Hn|Hn]; [discriminate|]. cbn [orb] in Hq.
      destruct (addTaskCheck times ts n) eqn:Ha; [|discriminate].
      injection Hq as <-. exists n. repeat (split; [first [reflexivity|assumption]|]).
      rewrite sumDur_snoc. split; [reflexivity|].
      unfold addTaskCheck, getCurrentBlockRemaining in Ha. rewrite Hbd in Ha.
      cbn [option_map] in Ha.
      destruct (Z.ltb_spec (Z.max 0 (bd - sumDur ts)) n); [discriminate|].
      unfold validateTasks. rewrite Hbd, sumDur_snoc. cbn [duration gtNum].
      rewrite (proj2 (Z.ltb_ge _ _)) by lia. reflexivity.
    + intros Heq n ts' Hn Hq. unfold quickAdd in Hq.
      destruct (String.eqb nm "" || (n =? 0)); [discriminate|].
      unfold addTaskCheck, getCurrentBlockRemaining in Hq. rewrite Hbd in Hq.
      cbn [option_map] in Hq.
      rewrite (proj2 (Z.ltb_lt _ _)) in Hq by lia. discriminate.
  - intros Hnan n Hnm Hn. unfold quickAdd.
    rewrite (proj2 (String.eqb_neq _ _) Hnm), (proj2 (Z.eqb_neq _ _) Hn). cbn [orb].
    unfold addTaskCheck, getCurrentBlockRemaining. rewrite Hnan. reflexivity.
Qed.

(** X12 witness: a 20-minute task added to a 60-minute block holding 40;
    and 600 minutes added to the Medium block 23:00-29:00 that the re-chain
    resolver makes of the late schedule. *)
Lemma quickAdd_fits_witness :
  validateTasks block_9_10 Medium [mkBuilderTask "a" 40; mkBuilderTask "b" 20] = TasksOk /\
  quickAdd (medium (autoAdjustContinuous late_high_times)) [] "c" (Some 600)
    = QuickAdded [mkBuilderTask "c" 600].
Proof.
  split.
  - destruct (proj1 (proj1 (quickAdd_fits block_9_10 Medium [mkBuilderTask "a" 40] "b" (Some 20))
      60 ltac:(vm_compute; reflexivity)) ltac:(vm_compute; discriminate)
      [mkBuilderTask "a" 40; mkBuilderTask "b" 20] eq_refl) as (n & _ & _ & _ & _ & _ & H).
    exact H.
  - apply (proj2 (quickAdd_fits (medium (autoAdjustContinuous late_high_times)) Medium [] "c" None)
      ltac:(vm_compute; reflexivity) 600 ltac:(discriminate) ltac:(lia)).
Defined.

(* ------------------------------------------------------------------ *)
(** ** Theme of the current time *)

(** X13: for a valid schedule in chronological order, the theme of
    [getEnergyThemeForNow] is High's from High's start up to Medium's start,
    Medium's from Medium's start up to Low's start, and Low's otherwise
    (before the day's first block, during Low and after it). *)
Theorem getEnergyThemeForNow_ordered (t : Times) (now : Z) :
  valid_times t -> ordered t ->
  getEnergyThemeForNow (themeTemplates t) now =
    energyTheme (if (toMin (startTime (high t)) <=? now) && (now <? toMin (startTime (medium t)))
                 then High
                 else if (toMin (startTime (medium t)) <=? now) && (now <? toMin (startTime (low t)))
                 then Medium else Low).
Proof.
  intros Hv Ho. destruct t as [H M L]. destruct_valid. cbn [high medium low] in *.
  unfold getEnergyThemeForNow, themeTemplates.
  cbn [map List.find seg_s seg_e seg_energy high medium low startTime endTime].
  set (hS := toMin (startTime H)) in *. set (hE := toMin (endTime H)) in *.
  set (mS := toMin (startTime M)) in *. set (mE := toMin (endTime M)) in *.
  set (lS := toMin (startTime L)) in *. set (lE := toMin (endTime L)) in *.
  rewrite (proj2 (Z.leb_le hS hE)), (proj2 (Z.leb_le mS mE)), (proj2 (Z.leb_le lS lE)) by lia.
  cbn [List.filter].
  repeat (first
    [ match goal with
      | |- context [?a <=? ?b] => destruct (Z.leb_spec a b)
      | |- context [?a <? ?b] => destruct (Z.ltb_spec a b)
      end; cbn [andb orb List.filter List.find seg_energy]
    | unfold sort_by, byEndDesc; cbn [fold_left insert_by seg_e head seg_energy] ]);
  cbn [seg_s seg_e] in *; try reflexivity; exfalso; lia.
Qed.

(** X13 witness: at 13:00 on the example schedule the theme is Medium's. *)
Lemma getEnergyThemeForNow_ordered_witness :
  getEnergyThemeForNow (themeTemplates example_times) 780 = energyTheme Medium.
Proof.
  rewrite (getEnergyThemeForNow_ordered example_times 780 example_times_valid
    ltac:(unfold ordered, toMin; cbn; lia)).
  reflexivity.
Defined.

(* ------------------------------------------------------------------ *)
(** ** Summary aggregates *)

Lemma fold_left_add {A} (f : A -> Z) (l : list A) (a : Z) :
  fold_left (fun acc x => acc + f x) l a = a + sumZ (map f l).
Proof. unfold sumZ. revert a. induction l as [|x l IH]; intros a; cbn [fold_left fold_right map]; [lia|]. rewrite IH. lia. Qed.

Lemma completedCount_bounds (s : Session) :
  0 <= completedCount s <= Z.of_nat (length (tasks s)).
Proof.
  unfold completedCount. split; [lia|].
  pose proof (List.filter_length_le isCompleted (tasks s)). lia.
Qed.

Lemma completedTasks_le_totalTasks (ss : list Session) :
  0 <= completedTasks ss <= totalTasks ss.
Proof.
  unfold completedTasks, totalTasks. rewrite !fold_left_add.
  unfold sumZ. induction ss as [|s ss IH]; cbn [map fold_right]; [lia|].
  pose proof (completedCount_bounds s). lia.
Qed.

(** X14: the consistency score of the summary equals its completion
    rate, and both lie between 0 and 100. *)
Theorem consistencyScore_eq_completionRate (ss : list Session) :
  (consistencyScoreOf ss == completionRateOf ss)%Q /\
  (0 <= completionRateOf ss <= 100)%Q.
Proof.
  pose proof (completedTasks_le_totalTasks ss) as [H0 H1].
  unfold consistencyScoreOf, completionRateOf.
  set (c := completedTasks ss) in *. set (t := totalTasks ss) in *.
  destruct (Z.ltb_spec 0 t) as [Ht|Ht].
  - assert (Hq : (0 <= inject_Z c / inject_Z t * 100 <= 100)%Q).
    { assert (Htq : (0 < inject_Z t)%Q)
        by (change (inject_Z 0 < inject_Z t)%Q; rewrite <- Zlt_Qlt; exact Ht).
      assert (Hc : (inject_Z c <= 1 * inject_Z t)%Q)
        by (rewrite Qmult_1_l; rewrite <- Zle_Qle; exact H1).
      assert (Hc0 : (0 * inject_Z t <= inject_Z c)%Q)
        by (rewrite Qmult_0_l; change 0%Q with (inject_Z 0); rewrite <- Zle_Qle; exact H0).
      split.
      - apply Qmult_le_0_compat; [apply Qle_shift_div_l; assumption|discriminate].
      - change 100%Q with (1 * 100)%Q at 2. apply Qmult_le_compat_r; [|discriminate].
        apply Qle_shift_div_r; assumption. }
    destruct (Z.ltb_spec 0 (Z.of_nat (length ss))) as [Hl|Hl].
    + rewrite Z.max_l by lia. split; [|exact Hq]. apply Q.min_r. apply Hq.
    + destruct ss; cbn in Hl; [|lia]. cbn in t. unfold t in Ht. cbn in Ht. lia.
  - assert (c = 0) as Hc0 by lia. split; [|split; discriminate].
    destruct (0 <? Z.of_nat (length ss)); [|reflexivity].
    rewrite Hc0. rewrite Q.min_r; [reflexivity|]. discriminate.
Qed.

Lemma addSession_fold_completed (ss : list Session) (m : gmap Z (Z * Z)) (h : Z) :
  fst (from_option id (0, 0) (fold_left addSession ss m !! h)) =
  fst (from_option id (0, 0) (m !! h)) +
  sumZ (map (fun s => if startHour s =? h then completedCount s else 0) ss).
Proof.
  unfold sumZ. revert m. induction ss as [|s ss IH]; intros m; cbn [fold_left map fold_right]; [lia|].
  rewrite IH. unfold addSession.
  destruct (from_option id (0, 0) (m !! startHour s)) as [c d] eqn:Hcd.
  destruct (Z.eqb_spec (startHour s) h) as [<-|Hne].
  - rewrite lookup_insert, decide_True by reflexivity. rewrite Hcd. cbn [from_option id fst].
    unfold completedCount. lia.
  - rewrite lookup_insert_ne by congruence. lia.
Qed.

Lemma sumZ_map_add {A} (f g : A -> Z) (l : list A) :
  sumZ (map (fun x => f x + g x) l) = sumZ (map f l) + sumZ (map g l).
Proof. unfold sumZ. induction l as [|x l IH]; cbn [map fold_right]; lia. Qed.

Lemma sumZ_swap {A B} (g : A -> B -> Z) (la : list A) (lb : list B) :
  sumZ (map (fun a => sumZ (map (g a) lb)) la) =
  sumZ (map (fun b => sumZ (map (fun a => g a b) la)) lb).
Proof.
  induction la as [|a la IH]; cbn [map].
  - unfold sumZ at 1. cbn. induction lb as [|b lb IHb]; [reflexivity|].
    unfold sumZ in *. cbn [map fold_right] in *. lia.
  - unfold sumZ at 1. cbn [fold_right]. fold (sumZ (map (fun a => sumZ (map (g a) lb)) la)).
    rewrite IH. rewrite <- sumZ_map_add. reflexivity.
Qed.

Lemma sumZ_indicator_seq (x c : Z) (a n : nat) :
  sumZ (map (fun h => if x =? h then c else 0) (map Z.of_nat (seq a n))) =
  if (Z.of_nat a <=? x) && (x <? Z.of_nat a + Z.of_nat n) then c else 0.
Proof.
  revert a. induction n as [|n IH]; intros a.
  - destruct (Z.leb_spec (Z.of_nat a) x), (Z.ltb_spec x (Z.of_nat a + Z.of_nat 0)); cbn; lia.
  - cbn [seq map]. unfold sumZ. cbn [fold_right]. fold (sumZ (map (fun h => if x =? h then c else 0) (map Z.of_nat (seq (S a) n)))).
    rewrite IH.
    destruct (Z.eqb_spec x (Z.of_nat a)), (Z.leb_spec (Z.of_nat (S a)) x), (Z.ltb_spec x (Z.of_nat (S a) + Z.of_nat n)),
      (Z.leb_spec (Z.of_nat a) x), (Z.ltb_spec x (Z.of_nat a + Z.of_nat (S n))); cbn [andb]; lia.
Qed.

(** X15: the [completed] counts of the 24 [byHour] rows add up to the
    completed tasks of the sessions whose start hour is in 0..23: every such
    task is counted once, in its hour. *)
Theorem byHour_completed_total (ss : list Session) :
  sumZ (map completed (byHour ss)) =
  sumZ (map (fun s => if (0 <=? startHour s) && (startHour s <? 24) then completedCount s else 0) ss).
Proof.
  unfold byHour. rewrite map_map.
  transitivity (sumZ (map (fun h => sumZ (map (fun s => if startHour s =? h then completedCount s else 0) ss)) hours24)).
  { f_equal. apply map_ext. intros h. rewrite rowOf_completed. unfold hourTotals, byHourMap.
    rewrite addSession_fold_completed. rewrite lookup_empty. cbn. reflexivity. }
  rewrite (sumZ_swap (fun h s => if startHour s =? h then completedCount s else 0)).
  f_equal. apply map_ext. intros s. unfold hours24.
  rewrite sumZ_indicator_seq. reflexivity.
Qed.

(** X16: the morning, afternoon and night session counts of
    [timeOfDayPatterns] add up to the number of sessions with a start time;
    on an hour of the day the summary's day part agrees with
    [getCurrentBlock] except at 5:00 and 18:00 (night for the summary,
    morning and afternoon for [getCurrentBlock]). *)
Theorem dayPart_buckets (ss : list Session) (h : Z) :
  timeOfDaySessions ss Morning + timeOfDaySessions ss Afternoon + timeOfDaySessions ss Night
    = Z.of_nat (length (List.filter (fun s => match start_time s with Some _ => true | None => false end) ss)) /\
  (0 <= h < 24 -> (dayPart h = getCurrentBlock h <-> h <> 5 /\ h <> 18)) /\
  (dayPart 5, getCurrentBlock 5, dayPart 18, getCurrentBlock 18)
    = (Night, Morning, Night, Afternoon).
Proof.
  split; [|split; [|reflexivity]].
  - unfold timeOfDaySessions. induction ss as [|s ss IH]; [reflexivity|].
    cbn [List.filter]. destruct (start_time s) as [c|]; [|exact IH].
    destruct (dayPart (hh c)); cbn [length]; lia.
  - intros Hh. unfold dayPart, getCurrentBlock.
    destruct (Z.leb_spec 6 h), (Z.ltb_spec h 12), (Z.leb_spec 12 h), (Z.ltb_spec h 18),
      (Z.leb_spec 5 h), (Z.ltb_spec h 19); cbn [andb];
      (split; [intros; try discriminate; lia|intros; try reflexivity; exfalso; lia]).
Qed.

(* ------------------------------------------------------------------ *)
(** ** Task DELETE route: what it changes *)

Lemma pretty_nonempty (n : Z) : 0 <= n -> pretty n <> "".
Proof.
  intros Hn Heq. destruct (Z.eq_dec n 0) as [->|Hnz]; [discriminate|].
  pose proof (Number_pretty n Hn) as HN. rewrite Heq in HN. cbn in HN.
  injection HN as HN. lia.
Qed.

(** X18: the task [DELETE] refuses a missing or empty id with 400 and no
    change; for the decimal text of a non-negative id it reports success,
    removes that row, keeps every other row and the blocks, and reports
    success without any change when no such row exists. *)
Theorem DELETE_frame (db : Db) (idParam : option string) :
  (truthy idParam = false -> DELETE db idParam = (DeleteErr 400 "id is required", db)) /\
  (forall n, 0 <= n -> idParam = Some (pretty n) ->
     fst (DELETE db idParam) = DeleteOk /\
     db_tasks (snd (DELETE db idParam)) !! n = None /\
     (forall j, j <> n -> db_tasks (snd (DELETE db idParam)) !! j = db_tasks db !! j) /\
     db_blocks (snd (DELETE db idParam)) = db_blocks db /\
     (db_tasks db !! n = None -> snd (DELETE db idParam) = db)).
Proof.
  split.
  - intros H. unfold DELETE. rewrite H. reflexivity.
  - intros n Hn ->. unfold DELETE.
    assert (Ht : truthy (Some (pretty n)) = true).
    { unfold truthy. apply negb_true_iff, String.eqb_neq. now apply pretty_nonempty. }
    rewrite Ht. cbn [negb from_option id]. rewrite Number_pretty by exact Hn.
    cbn [fst snd db_tasks db_blocks].
    split; [reflexivity|]. split; [apply lookup_delete_eq|].
    split; [intros j Hj; apply lookup_delete_ne; congruence|]. split; [reflexivity|].
    intros Hnone. destruct db as [tk bl]. cbn in *. f_equal. now apply delete_id.
Qed.
